(** * AQI engine and autoregressive forecast loop

    A shallow embedding of
      - [src/aqi_engine/standard_aqi.py]  (piecewise-linear conversion),
      - [src/aqi_engine/nowcast_aqi.py]   (NowCast smoothing),
      - [src/aqi_engine/compare.py]       (standard vs. NowCast),
      - [src/forecasting/forecast_3days.py] (72-step forecast loop),
    together with the properties of these functions.

    Python [float] is IEEE-754 binary64; it is modelled by Rocq's primitive
    [float], whose operations are the same binary64 operations with
    round-to-nearest-even.  Python [int] is [Z].  A call either returns a
    value or raises an exception: [result]. *)

From Stdlib Require Import ZArith Floats Uint63 Lia Bool List.
From stdpp Require Import gmap strings list.
Set Warnings "-inexact-float".

(** ** The Python run-time values the four modules handle *)

Module Py.

(** Objects that appear as column values, return values and exception
    arguments.  A pandas [Timestamp] is the number of seconds since
    1970-01-01T00:00:00. *)
Inductive pyobj :=
| PyNone
| PyInt (z : Z)
| PyFloat (f : float)
| PyStr (s : string)
| PyTimestamp (t : Z)
| PyPair (a b : pyobj).

(** An exception: its class name and its arguments. *)
Inductive exn := Exn (cls : string) (args : list pyobj).

Definition exn_class (e : exn) : string :=
  match e with Exn cls _ => cls end.

Inductive result (A : Type) :=
| Ret (a : A)
| Raise (e : exn).
Arguments Ret {A} a.
Arguments Raise {A} e.

#[global] Instance result_ret : MRet result := fun A a => Ret a.
#[global] Instance result_bind : MBind result := fun A B k m =>
  match m with
  | Ret a => k a
  | Raise e => Raise e
  end.

Definition ValueError (msg : string) : exn := Exn "ValueError" [PyStr msg].
Definition OverflowError (msg : string) : exn := Exn "OverflowError" [PyStr msg].
Definition ZeroDivisionError (msg : string) : exn :=
  Exn "ZeroDivisionError" [PyStr msg].
Definition KeyError (key : string) : exn := Exn "KeyError" [PyStr key].

(** [float(n)] for a Python int of magnitude below [2^63]: the nearest
    binary64 value (exact for the table constants and list lengths used
    here). *)
Definition float_of_Z (z : Z) : float :=
  match z with
  | Zneg p => PrimFloat.opp (PrimFloat.of_uint63 (Uint63.of_Z (Zpos p)))
  | _ => PrimFloat.of_uint63 (Uint63.of_Z z)
  end.

(** [x / y] on floats: Python raises where IEEE would return an infinity
    or a NaN for a zero divisor. *)
Definition truediv (x y : float) : result float :=
  if PrimFloat.eqb y 0%float
  then Raise (ZeroDivisionError "float division by zero")
  else Ret (PrimFloat.div x y).

(** The integer nearest to [m * 2^e], ties to the even one. *)
Definition round_half_even (m : positive) (e : Z) : Z :=
  match e with
  | Zneg p =>
      let d := Z.pow_pos 2 p in
      let q := (Zpos m / d)%Z in
      let r := (Zpos m mod d)%Z in
      match (2 * r ?= d)%Z with
      | Lt => q
      | Gt => (q + 1)%Z
      | Eq => if Z.even q then q else (q + 1)%Z
      end
  | _ => (Zpos m * 2 ^ e)%Z
  end.

(** [round(x)] with one argument: an int, ties to even; NaN and the
    infinities cannot be converted. *)
Definition round (x : float) : result Z :=
  match Prim2SF x with
  | S754_nan => Raise (ValueError "cannot convert float NaN to integer")
  | S754_infinity _ =>
      Raise (OverflowError "cannot convert float infinity to integer")
  | S754_zero _ => Ret 0%Z
  | S754_finite s m e => Ret (cond_Zopp s (round_half_even m e))
  end.

(** [sum(xs)]: the items are added from left to right, starting from the
    int [0]. *)
Definition sum (xs : list float) : float :=
  fold_left PrimFloat.add xs 0%float.

(** CPython 3.12 and later add floats with a compensation term (Neumaier):
    [hi] is the running sum above and [lo] collects the rounding errors,
    added at the end when it is finite and not zero.  The properties below
    are stated on [sum]; the windows on which they are evaluated give the
    same value under both. *)
Definition cs_add (total : float * float) (x : float) : float * float :=
  let '(hi, lo) := total in
  let t := PrimFloat.add hi x in
  let err :=
    if PrimFloat.leb (PrimFloat.abs x) (PrimFloat.abs hi)
    then PrimFloat.add (PrimFloat.sub hi t) x
    else PrimFloat.add (PrimFloat.sub x t) hi in
  (t, PrimFloat.add lo err).

Definition is_finite (x : float) : bool :=
  match Prim2SF x with
  | S754_zero _ | S754_finite _ _ _ => true
  | _ => false
  end.

Definition sum_compensated (xs : list float) : float :=
  let '(hi, lo) := fold_left cs_add xs (0%float, 0%float) in
  if negb (PrimFloat.eqb lo 0) && is_finite lo
  then PrimFloat.add hi lo
  else hi.

(** [min(xs)] and [max(xs)] on a list with first item [x]: the first
    extremal item in iteration order ([item < best], [item > best]). *)
Definition min_from (x : float) (xs : list float) : float :=
  fold_left (fun best item => if PrimFloat.ltb item best then item else best) xs x.
Definition max_from (x : float) (xs : list float) : float :=
  fold_left (fun best item => if PrimFloat.ltb best item then item else best) xs x.

End Py.
Import Py.

(** ** src/aqi_engine/standard_aqi.py *)

Module StandardAqi.

(** One tuple [(bplo, bphi, ilo, ihi)] of a breakpoint table.  The
    concentration bounds written as ints in the source ([0], [54], ...)
    are exactly representable, and Python compares and subtracts an int
    and a float as it does the two floats. *)
Record breakpoint := Breakpoint {
  bplo : float;
  bphi : float;
  ilo : Z;
  ihi : Z
}.

Definition pm25_table : list breakpoint :=
  [ Breakpoint 0 12.0 0 50;
    Breakpoint 12.1 35.4 51 100;
    Breakpoint 35.5 55.4 101 150;
    Breakpoint 55.5 150.4 151 200;
    Breakpoint 150.5 250.4 201 300;
    Breakpoint 250.5 500.4 301 500 ].

Definition pm10_table : list breakpoint :=
  [ Breakpoint 0 54 0 50;
    Breakpoint 55 154 51 100;
    Breakpoint 155 254 101 150;
    Breakpoint 255 354 151 200;
    Breakpoint 355 424 201 300;
    Breakpoint 425 604 301 500 ].

Definition o3_table : list breakpoint :=
  [ Breakpoint 0 0.054 0 50;
    Breakpoint 0.055 0.070 51 100;
    Breakpoint 0.071 0.085 101 150;
    Breakpoint 0.086 0.105 151 200;
    Breakpoint 0.106 0.200 201 300 ].

(** The dict literal [breakpoints]. *)
Definition breakpoints : gmap string (list breakpoint) :=
  <["pm25" := pm25_table]> (<["pm10" := pm10_table]> (<["o3" := o3_table]> ∅)).

(** [bplo <= concentration <= bphi] *)
Definition in_range (t : breakpoint) (concentration : float) : bool :=
  PrimFloat.leb (bplo t) concentration && PrimFloat.leb concentration (bphi t).

(** The body of the [if]: interpolate and round. *)
Definition interpolate (t : breakpoint) (concentration : float) : result Z :=
  slope ← truediv (float_of_Z (ihi t - ilo t)) (PrimFloat.sub (bphi t) (bplo t));
  round (PrimFloat.add
           (PrimFloat.mul slope (PrimFloat.sub concentration (bplo t)))
           (float_of_Z (ilo t))).

(** The [for] loop over the table, with the [return 500] after it. *)
Fixpoint scan (table : list breakpoint) (concentration : float) : result Z :=
  match table with
  | [] => Ret 500%Z
  | t :: rest =>
      if in_range t concentration
      then interpolate t concentration
      else scan rest concentration
  end.

Definition calculate_standard_aqi (concentration : float) (pollutant : string)
  : result Z :=
  match breakpoints !! pollutant with
  | None =>
      Raise (ValueError ("No breakpoints defined for pollutant: " +:+ pollutant))
  | Some table => scan table concentration
  end.

End StandardAqi.
Import StandardAqi.

(** ** src/aqi_engine/nowcast_aqi.py *)

Module NowcastAqi.
Section WithPow.

(** [w ** t] for a float [w] and an int [t] is computed by the platform's
    [pow]; the embedding takes it as given.  Where a property needs it, the
    only fact used is the one C and Python guarantee: [1.0 ** t == 1.0]. *)
Variable float_pow : float -> Z -> float.

(** The weight factor, from the window's minimum and maximum. *)
Definition weight (c_min c_max : float) : result float :=
  if PrimFloat.ltb 0 c_max then
    scaled_rate ← truediv (PrimFloat.sub c_max c_min) c_max;
    let w := PrimFloat.sub 1 scaled_rate in
    Ret (max_from 0.5 [min_from 1.0 [w]])
  else Ret 1.0%float.

(** [sum(w**t * c for t, c in enumerate(reversed(pm_last_12h)))] *)
Definition numerator (w : float) (pm_last_12h : list float) : float :=
  Py.sum (imap (fun t c => PrimFloat.mul (float_pow w (Z.of_nat t)) c)
               (rev pm_last_12h)).

(** [sum(w**t for t in range(len(pm_last_12h)))] *)
Definition denominator (w : float) (pm_last_12h : list float) : float :=
  Py.sum (map (fun t => float_pow w (Z.of_nat t)) (seq 0 (length pm_last_12h))).

Definition nowcast_concentration (w : float) (pm_last_12h : list float)
  : result float :=
  truediv (numerator w pm_last_12h) (denominator w pm_last_12h).

(** The window's weight: [c_min], [c_max] and the branch on [c_max > 0]. *)
Definition window_weight (x : float) (rest : list float) : result float :=
  weight (min_from x rest) (max_from x rest).

(** The value returned is an int, or [None] for the empty window. *)
Definition calculate_nowcast (pm_last_12h : list float) (pollutant : string)
  : result (option Z) :=
  match pm_last_12h with
  | [] => Ret None
  | x :: rest =>
      w ← window_weight x rest;
      c ← nowcast_concentration w pm_last_12h;
      aqi ← calculate_standard_aqi c pollutant;
      Ret (Some aqi)
  end.

End WithPow.
End NowcastAqi.
Import NowcastAqi.

(** ** src/aqi_engine/compare.py *)

Module Compare.
Section WithPow.
Variable float_pow : float -> Z -> float.

Definition py_of_optint (v : option Z) : pyobj :=
  match v with
  | Some z => PyInt z
  | None => PyNone
  end.

(** [sum(pm_last_12h)/len(pm_last_12h)] *)
Definition window_mean (pm_last_12h : list float) : result float :=
  match pm_last_12h with
  | [] => Raise (ZeroDivisionError "division by zero")
  | _ => truediv (Py.sum pm_last_12h)
                 (float_of_Z (Z.of_nat (length pm_last_12h)))
  end.

Definition compare_aqi (pm_last_12h : list float) (pm_24h_avg : option float)
    (pollutant : string) : result (gmap string pyobj) :=
  avg ← match pm_24h_avg with
        | None => window_mean pm_last_12h
        | Some a => Ret a
        end;
  standard ← calculate_standard_aqi avg pollutant;
  nowcast ← calculate_nowcast float_pow pm_last_12h pollutant;
  Ret (<["standard_aqi" := PyInt standard]>
         (<["nowcast_aqi" := py_of_optint nowcast]> ∅)).

End WithPow.
End Compare.
Import Compare.

(** ** src/forecasting/forecast_3days.py *)

Module Forecast.

Definition HOURS_AHEAD : nat := 72.

(** Calendar fields of a timestamp (seconds since the epoch, proleptic
    Gregorian calendar, Monday = 0). *)
Definition ts_days (t : Z) : Z := (t / 86400)%Z.
Definition ts_hour (t : Z) : Z := ((t / 3600) mod 24)%Z.
Definition ts_dayofweek (t : Z) : Z := ((ts_days t + 3) mod 7)%Z.

Definition ts_month_day (t : Z) : Z * Z :=
  let z := (ts_days t + 719468)%Z in
  let era := (z / 146097)%Z in
  let doe := (z - era * 146097)%Z in
  let yoe := ((doe - doe / 1460 + doe / 36524 - doe / 146096) / 365)%Z in
  let doy := (doe - (365 * yoe + yoe / 4 - yoe / 100))%Z in
  let mp := ((5 * doy + 2) / 153)%Z in
  let d := (doy - (153 * mp + 2) / 5 + 1)%Z in
  let m := if (mp <? 10)%Z then (mp + 3)%Z else (mp - 9)%Z in
  (m, d).
Definition ts_month (t : Z) : Z := fst (ts_month_day t).
Definition ts_day (t : Z) : Z := snd (ts_month_day t).

Definition TypeError (msg : string) : exn := Exn "TypeError" [PyStr msg].

(** The one-row frame [current]: column name to value. *)
Abbreviation frame := (gmap string pyobj).

Section WithModel.

(** [model.predict(X)[0]]: the loaded model, which returns a prediction or
    raises. *)
Variable predict : frame -> result float.

(** [current.drop(columns=[...], errors="ignore")] *)
Definition features (current : frame) : frame :=
  delete "pm25_next_hour" (delete "location" (delete "timestamp" current)).

(** [current["timestamp"].iloc[0] + timedelta(hours=1)] *)
Definition next_timestamp (current : frame) : result Z :=
  match current !! "timestamp" with
  | Some (PyTimestamp t) => Ret (t + 3600)%Z
  | Some _ => Raise (TypeError "unsupported operand type(s) for +")
  | None => Raise (KeyError "timestamp")
  end.

(** The lag update: both shifts sit under the test on [pm25_lag_1h]. *)
Definition update_lags (pred_pm25 : float) (current : frame) : frame :=
  let shifted :=
    if decide (is_Some (current !! "pm25_lag_1h")) then
      let c6 := <["pm25_lag_6h" :=
                   default (PyFloat pred_pm25) (current !! "pm25_lag_3h")]> current in
      <["pm25_lag_3h" := default (PyFloat pred_pm25) (c6 !! "pm25_lag_1h")]> c6
    else current in
  <["pm25_lag_1h" := PyFloat pred_pm25]> shifted.

Definition py_of_bool (b : bool) : pyobj := PyInt (if b then 1 else 0).

Definition is_rush_hour (h : Z) : bool :=
  bool_decide (h ∈ [7; 8; 9; 17; 18; 19]%Z).

(** The timestamp and the calendar columns. *)
Definition update_time (next_time : Z) (current : frame) : frame :=
  <["is_rush_hour" := py_of_bool (is_rush_hour (ts_hour next_time))]>
  (<["is_weekend" := py_of_bool (5 <=? ts_dayofweek next_time)%Z]>
  (<["day_of_week" := PyInt (ts_dayofweek next_time)]>
  (<["month" := PyInt (ts_month next_time)]>
  (<["day" := PyInt (ts_day next_time)]>
  (<["hour" := PyInt (ts_hour next_time)]>
  (<["timestamp" := PyTimestamp next_time]> current)))))).

(** One iteration of the [for] body: the prediction appended and the
    frame it leaves. *)
Definition forecast_step (current : frame) : result (float * frame) :=
  pred_pm25 ← predict (features current);
  next_time ← next_timestamp current;
  let current := update_lags pred_pm25 current in
  let current := <["pm25" := PyFloat pred_pm25]> current in
  Ret (pred_pm25, update_time next_time current).

(** [for step in range(n)] with the list [predictions] and the frame
    [current] as loop state. *)
Fixpoint forecast_loop (n : nat) (predictions : list float) (current : frame)
  : result (list float * frame) :=
  match n with
  | O => Ret (predictions, current)
  | S n' =>
      '(pred_pm25, current') ← forecast_step current;
      forecast_loop n' (predictions ++ [pred_pm25]) current'
  end.

(** [forecast_3_days()], given the latest feature row that
    [load_latest_features] returned. *)
Definition forecast_3_days (latest : frame) : result (list float) :=
  '(predictions, _) ← forecast_loop HOURS_AHEAD [] latest;
  Ret predictions.

End WithModel.
End Forecast.
Import Forecast.

(** ** Names the specification uses for failures and for the forecast series *)

Module Spec.

Definition EmptyWindow : exn := Exn "EmptyWindow" [].
Definition ForecastStepFailed (step : nat) : exn :=
  Exn "ForecastStepFailed" [PyInt (Z.of_nat step)].

(** The series as the specification words it: entry [k] pairs the seed
    timestamp plus [k+1] hours with the index of prediction [k]. *)
Definition series_entry (seed_time : Z) (k : nat) (aqi : Z) : pyobj :=
  PyPair (PyTimestamp (seed_time + 3600 * (Z.of_nat k + 1))) (PyInt aqi).

End Spec.

(** ** Vocabulary of the properties *)

(** A table is ordered when every tuple has [bplo <= bphi] and ends
    strictly below the start of the next one: adjacent tuples share no
    concentration. *)
Fixpoint ordered (table : list breakpoint) : bool :=
  match table with
  | [] => true
  | t :: rest =>
      PrimFloat.leb (bplo t) (bphi t)
      && match rest with
         | [] => true
         | t' :: _ => PrimFloat.ltb (bphi t) (bplo t')
         end
      && ordered rest
  end.

(** Both edges of a tuple belong to it: the lower edge maps to [ilo] and
    the upper edge to [ihi]. *)
Definition edges_inclusive (pollutant : string) (table : list breakpoint) : Prop :=
  Forall (fun t =>
            calculate_standard_aqi (bplo t) pollutant = Ret (ilo t)
            /\ calculate_standard_aqi (bphi t) pollutant = Ret (ihi t)) table.

(** The concentration lies above the range of every tuple. *)
Definition above_table (concentration : float) (table : list breakpoint) : Prop :=
  Forall (fun t => PrimFloat.ltb (bphi t) concentration = true) table.

(** The exception classes [calculate_standard_aqi] can raise. *)
Definition standard_aqi_errors : list string :=
  ["ValueError"; "OverflowError"; "ZeroDivisionError"].

(** A stand-in for [w ** t] by repeated multiplication, used where a
    property is evaluated on concrete windows; [1.0 ** t] is [1.0]. *)
Fixpoint pow_nat (w : float) (n : nat) : float :=
  match n with
  | O => 1%float
  | S k => PrimFloat.mul w (pow_nat w k)
  end.
Definition pow_ref (w : float) (t : Z) : float := pow_nat w (Z.to_nat t).

(** A model that never raises. *)
Definition total_model (f : frame -> float) : frame -> result float :=
  fun X => Ret (f X).

(** A model that always predicts 5. *)
Definition const5 : frame -> result float := total_model (fun _ => 5%float).

(** A model that fails on the rows whose [hour] column is [h]. *)
Definition model_error : exn := Exn "RuntimeError" [PyStr "model failure"].
Definition fail_at_hour (h : Z) : frame -> result float :=
  fun X =>
    match X !! "hour" with
    | Some (PyInt z) => if (z =? h)%Z then Raise model_error else Ret 5%float
    | _ => Ret 5%float
    end.

(** A latest feature row: midnight of 1970-01-01, lags 10, 20 and 30. *)
Definition seed_row : frame :=
  <["timestamp" := PyTimestamp 0]>
  (<["location" := PyStr "Karachi"]>
  (<["hour" := PyInt 0]>
  (<["pm25" := PyFloat 10]>
  (<["pm25_lag_1h" := PyFloat 10]>
  (<["pm25_lag_3h" := PyFloat 20]>
  (<["pm25_lag_6h" := PyFloat 30]> ∅)))))).

(** The frame a run leaves, or the empty frame if it raised. *)
Definition loop_state (r : result (list float * frame)) : frame :=
  match r with
  | Ret (_, state) => state
  | Raise _ => ∅
  end.

(** The frame on which step 2 runs when the model fails at 02:00. *)
Definition state_before_step2 : frame :=
  loop_state (forecast_loop (fail_at_hour 2) 2 [] seed_row).

(** What the specification says a forecast run returns, for the step
    predictions [preds] and the seed timestamp: entry [k] is the pair of
    the seed time plus [k+1] hours and the index of prediction [k]. *)
Definition is_forecast_series (seed_time : Z) (preds : list float)
    (out : list pyobj) : Prop :=
  length out = length preds
  /\ forall k p, preds !! k = Some p ->
       exists aqi, calculate_standard_aqi p "pm25" = Ret aqi
                   /\ out !! k = Some (Spec.series_entry seed_time k aqi).

(** A binary64 value of sign [s] that is neither a zero nor a NaN: a
    finite number (exponent at least [emin]) or the infinity. *)
Definition signed_nonzero (s : bool) (x : spec_float) : Prop :=
  (exists m e, x = S754_finite s m e /\ (emin <= e)%Z) \/ x = S754_infinity s.

(** A strictly positive float, possibly the infinity. *)
Definition pos_float (x : float) : Prop := signed_nonzero false (Prim2SF x).

(** ** src/data_pipeline/clean_transform.py: the time-based columns

    Sections 2 and 3 of [transform_features] compute, row by row, the
    calendar columns from the row's timestamp. *)

Module CleanTransform.

(** [series.isin(values).astype(int)] on one cell. *)
Definition isin_int (x : Z) (values : list Z) : pyobj :=
  PyInt (if bool_decide (x ∈ values) then 1 else 0).

(** The columns [hour], [day], [month], [day_of_week], [is_rush_hour] and
    [is_weekend] of a row whose timestamp is [t]. *)
Definition time_features (t : Z) (row : frame) : frame :=
  let hour := ts_hour t in
  let day_of_week := ts_dayofweek t in
  <["is_weekend" := isin_int day_of_week [5; 6]%Z]>
  (<["is_rush_hour" := isin_int hour [7; 8; 9; 17; 18; 19]%Z]>
  (<["day_of_week" := PyInt day_of_week]>
  (<["month" := PyInt (ts_month t)]>
  (<["day" := PyInt (ts_day t)]>
  (<["hour" := PyInt hour]> row))))).

End CleanTransform.
Import CleanTransform.

(** ** app.py: the colour of an index and the forecast table *)

Module App.

Definition aqi_color (aqi : Z) : string :=
  if (aqi <=? 50)%Z then "#2ecc71"
  else if (aqi <=? 100)%Z then "#f1c40f"
  else if (aqi <=? 150)%Z then "#e67e22"
  else if (aqi <=? 200)%Z then "#e74c3c"
  else "#9b59b6".

(** [[latest_row["timestamp"] + timedelta(hours=i + 1)
      for i in range(len(predictions))]] *)
Definition forecast_times (latest_timestamp : Z) (predictions : list float)
  : list Z :=
  map (fun i => (latest_timestamp + 3600 * (Z.of_nat i + 1))%Z)
      (seq 0 (length predictions)).

(** [forecast_df["pm25"].apply(lambda x: calculate_standard_aqi(x, "pm25"))]:
    the cells are converted in order, and the first exception ends the
    call. *)
Fixpoint apply_aqi (pm25 : list float) : result (list Z) :=
  match pm25 with
  | [] => Ret []
  | x :: rest =>
      aqi ← calculate_standard_aqi x "pm25";
      aqis ← apply_aqi rest;
      Ret (aqi :: aqis)
  end.

(** The rows [(timestamp, pm25, aqi)] of [forecast_df]. *)
Definition forecast_df (latest_timestamp : Z) (predictions : list float)
  : result (list (Z * float * Z)) :=
  aqis ← apply_aqi predictions;
  Ret (zip (zip (forecast_times latest_timestamp predictions) predictions) aqis).

End App.
Import App.

(** The columns one iteration of the forecast loop assigns. *)
Definition updated_columns : list string :=
  ["pm25_lag_6h"; "pm25_lag_3h"; "pm25_lag_1h"; "pm25"; "timestamp"; "hour";
   "day"; "month"; "day_of_week"; "is_weekend"; "is_rush_hour"].

(** The calendar columns. *)
Definition calendar_columns : list string :=
  ["hour"; "day"; "month"; "day_of_week"; "is_rush_hour"; "is_weekend"].

(** A latest row that also carries a rolling mean. *)
Definition seed_row_rolling : frame :=
  <["pm25_rolling_3h" := PyFloat 15]> seed_row.

(** A latest row without lag columns. *)
Definition seed_row_no_lags : frame :=
  <["timestamp" := PyTimestamp 0]> (<["pm25" := PyFloat 10]> ∅).

(** A row of [forecast_df] as the pair (timestamp, index). *)
Definition row_pair (row : Z * float * Z) : pyobj :=
  let '(ts, _, aqi) := row in PyPair (PyTimestamp ts) (PyInt aqi).

(** A model whose prediction is the hour of the row it is given. *)
Definition hour_model : frame -> result float :=
  fun X =>
    match X !! "hour" with
    | Some (PyInt z) => Ret (float_of_Z z)
    | _ => Ret 0%float
    end.

(** A latest row at 23:00 of Friday 1970-01-02. *)
Definition friday_row : frame := <["timestamp" := PyTimestamp 169200]> seed_row.

(** The magnitude of a binary64 value is at most [B]: it is a zero, or a
    finite [m * 2^e] with [digits m + e <= B], that is below [2^B]. *)
Definition mag_le (B : Z) (x : spec_float) : Prop :=
  match x with
  | S754_zero _ => True
  | S754_finite _ m e => (Zpos (digits2_pos m) + e <= B)%Z
  | _ => False
  end.

Definition mag_leb (B : Z) (x : spec_float) : bool :=
  match x with
  | S754_zero _ => true
  | S754_finite _ m e => (Zpos (digits2_pos m) + e <=? B)%Z
  | _ => false
  end.

(** What the interpolation in a tuple needs to stay finite: the slope is
    computed without error and, like the bounds and [ilo], is below
    [2^20]; the lower bound is not negative. *)
Definition tuple_ok (t : breakpoint) : bool :=
  match truediv (float_of_Z (ihi t - ilo t)) (PrimFloat.sub (bphi t) (bplo t)) with
  | Ret slope => mag_leb 20 (Prim2SF slope)
  | Raise _ => false
  end
  && PrimFloat.leb 0 (bplo t)
  && mag_leb 20 (Prim2SF (bplo t))
  && match Prim2SF (bphi t) with
     | S754_finite false _ e => (53 + e <=? 20)%Z
     | _ => false
     end
  && mag_leb 20 (Prim2SF (float_of_Z (ilo t))).

(** A float that is [+0] or strictly positive. *)
Definition nonneg_float (x : float) : Prop :=
  pos_float x \/ Prim2SF x = S754_zero false.

(** The exact value of a finite float, as [num * 2^exp]. *)
Definition exact_value (x : float) : option (Z * Z) :=
  match Prim2SF x with
  | S754_zero _ => Some (0, 0)%Z
  | S754_finite s m e => Some (cond_Zopp s (Zpos m), e)
  | _ => None
  end.

(** Exact sum and exact equality of such values. *)
Definition dyadic_add (a b : Z * Z) : Z * Z :=
  let e := Z.min (snd a) (snd b) in
  (fst a * 2 ^ (snd a - e) + fst b * 2 ^ (snd b - e), e)%Z.

Definition dyadic_eq (a b : Z * Z) : Prop :=
  let e := Z.min (snd a) (snd b) in
  (fst a * 2 ^ (snd a - e) = fst b * 2 ^ (snd b - e))%Z.

Fixpoint exact_sum (xs : list float) : option (Z * Z) :=
  match xs with
  | [] => Some (0, 0)%Z
  | x :: rest =>
      match exact_value x, exact_sum rest with
      | Some a, Some b => Some (dyadic_add a b)
      | _, _ => None
      end
  end.

(** [a] is the arithmetic mean of [xs] as real numbers: the exact sum of
    [xs] is [len(xs)] times the exact value of [a]. *)
Definition is_arithmetic_mean (xs : list float) (a : float) : Prop :=
  match exact_sum xs, exact_value a with
  | Some s, Some v => dyadic_eq s (Z.of_nat (length xs) * fst v, snd v)%Z
  | _, _ => False
  end.

(** The dict [compare_aqi] returns for two indices. *)
Definition comparison (standard nowcast : Z) : gmap string pyobj :=
  <["standard_aqi" := PyInt standard]> (<["nowcast_aqi" := PyInt nowcast]> ∅).

(** * Properties *)

(** ** The order on binary64 values

    The comparisons of primitive floats are specified on [spec_float]
    ([ltb_spec], [leb_spec]); there the order is lexicographic on sign,
    exponent and mantissa, and a NaN compares with nothing. *)

Module FloatOrder.

Ltac cmp_cases :=
  repeat match goal with
  | H : context [Pos.compare_cont Eq ?a ?b] |- _ =>
      change (Pos.compare_cont Eq a b) with (Pos.compare a b) in H
  | |- context [Pos.compare_cont Eq ?a ?b] =>
      change (Pos.compare_cont Eq a b) with (Pos.compare a b)
  end;
  repeat match goal with
  | H : context [(?a ?= ?b)%Z] |- _ => destruct (Z.compare_spec a b)
  | |- context [(?a ?= ?b)%Z] => destruct (Z.compare_spec a b)
  | H : context [(?a ?= ?b)%positive] |- _ => destruct (Pos.compare_spec a b)
  | |- context [(?a ?= ?b)%positive] => destruct (Pos.compare_spec a b)
  end;
  simpl in *; subst; try discriminate; try reflexivity; try lia.

Ltac by_shape3 x y z :=
  destruct x as [[]|[]| |[] ? ?], y as [[]|[]| |[] ? ?], z as [[]|[]| |[] ? ?];
  intros; try discriminate; try reflexivity; cmp_cases.

Ltac by_shape2 x y :=
  destruct x as [[]|[]| |[] ? ?], y as [[]|[]| |[] ? ?];
  intros; try discriminate; try reflexivity; cmp_cases.

Lemma SFleb_trans x y z :
  SFleb x y = true -> SFleb y z = true -> SFleb x z = true.
Proof. unfold SFleb, SFcompare. by_shape3 x y z. Qed.

Lemma SFltb_trans x y z :
  SFltb x y = true -> SFltb y z = true -> SFltb x z = true.
Proof. unfold SFltb, SFcompare. by_shape3 x y z. Qed.

Lemma SFltb_leb_trans x y z :
  SFltb x y = true -> SFleb y z = true -> SFltb x z = true.
Proof. unfold SFltb, SFleb, SFcompare. by_shape3 x y z. Qed.

Lemma SFleb_ltb_trans x y z :
  SFleb x y = true -> SFltb y z = true -> SFltb x z = true.
Proof. unfold SFltb, SFleb, SFcompare. by_shape3 x y z. Qed.

Lemma SFltb_not_leb x y : SFltb x y = true -> SFleb y x = false.
Proof. unfold SFleb, SFltb, SFcompare. by_shape2 x y. Qed.

Lemma SFltb_irrefl x : SFltb x x = false.
Proof.
  unfold SFltb, SFcompare.
  destruct x as [[]|[]| |[] ? ?]; try reflexivity; cmp_cases.
Qed.

Lemma SFltb_not_eqb x y : SFltb x y = true -> SFeqb y x = false.
Proof. unfold SFeqb, SFltb, SFcompare. by_shape2 x y. Qed.

Lemma leb_trans x y z :
  PrimFloat.leb x y = true -> PrimFloat.leb y z = true -> PrimFloat.leb x z = true.
Proof. rewrite !FloatAxioms.leb_spec. apply SFleb_trans. Qed.

Lemma ltb_trans x y z :
  PrimFloat.ltb x y = true -> PrimFloat.ltb y z = true -> PrimFloat.ltb x z = true.
Proof. rewrite !FloatAxioms.ltb_spec. apply SFltb_trans. Qed.

Lemma ltb_leb_trans x y z :
  PrimFloat.ltb x y = true -> PrimFloat.leb y z = true -> PrimFloat.ltb x z = true.
Proof. rewrite !FloatAxioms.ltb_spec, FloatAxioms.leb_spec. apply SFltb_leb_trans. Qed.

Lemma leb_ltb_trans x y z :
  PrimFloat.leb x y = true -> PrimFloat.ltb y z = true -> PrimFloat.ltb x z = true.
Proof. rewrite !FloatAxioms.ltb_spec, FloatAxioms.leb_spec. apply SFleb_ltb_trans. Qed.

Lemma ltb_not_leb x y : PrimFloat.ltb x y = true -> PrimFloat.leb y x = false.
Proof. rewrite FloatAxioms.ltb_spec, FloatAxioms.leb_spec. apply SFltb_not_leb. Qed.

Lemma ltb_irrefl x : PrimFloat.ltb x x = false.
Proof. rewrite FloatAxioms.ltb_spec. apply SFltb_irrefl. Qed.

Lemma ltb_not_eqb x y : PrimFloat.ltb x y = true -> PrimFloat.eqb y x = false.
Proof. rewrite FloatAxioms.ltb_spec, FloatAxioms.eqb_spec. apply SFltb_not_eqb. Qed.

End FloatOrder.

(** ** Rounding of binary64 operations

    The arithmetic of primitive floats is specified on [spec_float]
    ([add_spec], ...): the exact result is rounded by [binary_round_aux].
    Rounding a positive mantissa never gives a zero or a NaN, and
    multiplying by [1.0] is exact. *)

Module FloatArith.
Local Open Scope Z_scope.

Lemma digits2_pos_bounds p :
  2 ^ (Zpos (digits2_pos p) - 1) <= Zpos p < 2 ^ Zpos (digits2_pos p).
Proof.
  induction p as [p IH|p IH|]; simpl digits2_pos.
  - rewrite Pos2Z.inj_succ.
    replace (Z.succ (Zpos (digits2_pos p)) - 1) with (Z.succ (Zpos (digits2_pos p) - 1)) by lia.
    rewrite !Z.pow_succ_r by lia. lia.
  - rewrite Pos2Z.inj_succ.
    replace (Z.succ (Zpos (digits2_pos p)) - 1) with (Z.succ (Zpos (digits2_pos p) - 1)) by lia.
    rewrite !Z.pow_succ_r by lia. lia.
  - simpl. lia.
Qed.

Lemma shr_1_m mrs : 0 <= shr_m mrs -> shr_m (shr_1 mrs) = shr_m mrs / 2.
Proof.
  destruct mrs as [m r s]. simpl shr_m. intros Hm.
  rewrite <- Z.div2_div.
  destruct m as [|[p|p|]|p]; try reflexivity. lia.
Qed.

Lemma iter_pos_shr_m k mrs :
  0 <= shr_m mrs ->
  shr_m (SpecFloat.iter_pos shr_1 k mrs) = shr_m mrs / 2 ^ Zpos k.
Proof.
  revert mrs. induction k as [k IH|k IH|]; intros mrs Hm; simpl SpecFloat.iter_pos.
  - assert (H1 : 0 <= shr_m (shr_1 mrs)).
    { rewrite shr_1_m by assumption. apply Z.div_pos; lia. }
    assert (H2 : 0 <= shr_m (SpecFloat.iter_pos shr_1 k (shr_1 mrs))).
    { rewrite IH by assumption. apply Z.div_pos; [assumption|]. apply Z.pow_pos_nonneg; lia. }
    rewrite IH, IH, shr_1_m by assumption.
    assert (Hp : 0 < 2 ^ Zpos k) by (apply Z.pow_pos_nonneg; lia).
    rewrite !Z.div_div by lia.
    f_equal.
    assert (Hx : 2 ^ Zpos k~1 = 2 * (2 ^ Zpos k * 2 ^ Zpos k)).
    { rewrite <- Z.pow_add_r, <- Z.pow_succ_r by lia. f_equal. lia. }
    rewrite Hx. lia.
  - assert (H2 : 0 <= shr_m (SpecFloat.iter_pos shr_1 k mrs)).
    { rewrite IH by assumption. apply Z.div_pos; [assumption|]. apply Z.pow_pos_nonneg; lia. }
    rewrite IH, IH by assumption.
    assert (Hp : 0 < 2 ^ Zpos k) by (apply Z.pow_pos_nonneg; lia).
    rewrite !Z.div_div by lia.
    f_equal.
    assert (Hx : 2 ^ Zpos k~0 = 2 ^ Zpos k * 2 ^ Zpos k).
    { rewrite <- Z.pow_add_r by lia. f_equal. lia. }
    rewrite Hx. lia.
  - rewrite shr_1_m by assumption. reflexivity.
Qed.

(** Shifting a positive mantissa right by fewer places than it has digits
    leaves a positive mantissa. *)
Lemma shr_pos m r s e n :
  n < Zpos (digits2_pos m) ->
  exists m', shr_m (fst (shr (Build_shr_record (Zpos m) r s) e n)) = Zpos m'
             /\ snd (shr (Build_shr_record (Zpos m) r s) e n) = e + Z.max n 0.
Proof.
  intros Hn. destruct n as [|k|k]; simpl.
  - exists m. split; [reflexivity|lia].
  - rewrite iter_pos_shr_m by (simpl; lia). simpl shr_m.
    assert (Hb := digits2_pos_bounds m).
    assert (Hp : 0 < 2 ^ Zpos k) by (apply Z.pow_pos_nonneg; lia).
    assert (Hle : 2 ^ Zpos k <= Zpos m).
    { eapply Z.le_trans; [|apply Hb]. apply Z.pow_le_mono_r; lia. }
    assert (Hq : 0 < Zpos m / 2 ^ Zpos k) by (apply Z.div_str_pos; lia).
    destruct (Zpos m / 2 ^ Zpos k) as [|q|q]; try lia.
    exists q. split; [reflexivity|lia].
  - exists m. split; [reflexivity|lia].
Qed.

Lemma round_nearest_even_pos m l :
  exists m', round_nearest_even (Zpos m) l = Zpos m'.
Proof.
  destruct l as [|[]]; simpl; eauto.
  destruct m; simpl; eauto.
Qed.

Lemma binary_round_aux_pos s m e :
  emin < Zpos (digits2_pos m) + e ->
  signed_nonzero s (binary_round_aux prec emax s (Zpos m) e loc_Exact).
Proof.
  intros HD. unfold binary_round_aux, shr_fexp.
  simpl Zdigits2. simpl shr_record_of_loc.
  set (n1 := fexp prec emax (Zpos (digits2_pos m) + e) - e).
  assert (Hn1 : n1 < Zpos (digits2_pos m)).
  { unfold n1, fexp, SpecFloat.emin, prec, emax in *. lia. }
  destruct (shr_pos m false false e n1 Hn1) as (m1 & Hm1 & He1).
  destruct (shr {| shr_m := Zpos m; shr_r := false; shr_s := false |} e n1)
    as [mrs' e'].
  simpl in Hm1, He1. rewrite Hm1.
  destruct (round_nearest_even_pos m1 (loc_of_shr_record mrs')) as [m2 Hm2].
  rewrite Hm2. simpl Zdigits2.
  set (n2 := fexp prec emax (Zpos (digits2_pos m2) + e') - e').
  assert (He' : emin <= e').
  { subst e'. unfold n1, fexp, SpecFloat.emin, prec, emax in *. lia. }
  assert (Hn2 : n2 < Zpos (digits2_pos m2)).
  { unfold n2, fexp, SpecFloat.emin, prec, emax in *. lia. }
  destruct (shr_pos m2 false false e' n2 Hn2) as (m3 & Hm3 & He3).
  destruct (shr {| shr_m := Zpos m2; shr_r := false; shr_s := false |} e' n2)
    as [mrs'' e''].
  simpl in Hm3, He3. rewrite Hm3.
  destruct (e'' <=? emax - prec).
  - left. exists m3, e''. split; [reflexivity|lia].
  - right. reflexivity.
Qed.

Lemma digits2_pos_iter_xO m d :
  Zpos (digits2_pos (Pos.iter xO m d)) = Zpos (digits2_pos m) + Zpos d.
Proof.
  induction d as [|d IH] using Pos.peano_ind.
  - simpl. lia.
  - rewrite Pos.iter_succ. simpl digits2_pos. lia.
Qed.

Lemma binary_round_pos s m e :
  emin < Zpos (digits2_pos m) + e ->
  signed_nonzero s (binary_round prec emax s m e).
Proof.
  intros HD. unfold binary_round, shl_align.
  destruct (fexp prec emax (Zpos (digits2_pos m) + e) - e) as [|d|d] eqn:Hd;
    apply binary_round_aux_pos; try assumption.
  rewrite digits2_pos_iter_xO. lia.
Qed.

Local Open Scope float_scope.

Lemma pos_float_add x y : pos_float x -> pos_float y -> pos_float (x + y).
Proof.
  unfold pos_float. rewrite FloatAxioms.add_spec. unfold SF64add.
  intros [(m1 & e1 & -> & He1)| ->] [(m2 & e2 & -> & He2)| ->];
    try (right; reflexivity).
  unfold SFadd, cond_Zopp. simpl Z.add. unfold binary_normalize.
  apply binary_round_pos.
  assert (1 <= Zpos (digits2_pos (fst (shl_align m1 e1 (Z.min e1 e2))
                                  + fst (shl_align m2 e2 (Z.min e1 e2)))))%Z
    by lia.
  unfold SpecFloat.emin, prec, emax in *. lia.
Qed.

Lemma pos_float_of_uint63 n :
  (0 < Uint63.to_Z n)%Z -> pos_float (of_uint63 n).
Proof.
  intros Hn. unfold pos_float. rewrite of_uint63_spec.
  destruct (Uint63.to_Z n) as [|p|p]; try lia.
  simpl. apply binary_round_pos. unfold SpecFloat.emin, prec, emax.
  assert (0 < Zpos (digits2_pos p))%Z by lia. lia.
Qed.

Lemma pos_float_eqb_zero x : pos_float x -> (x =? 0) = false.
Proof.
  unfold pos_float. rewrite FloatAxioms.eqb_spec.
  intros [(m & e & -> & _)| ->]; reflexivity.
Qed.

Lemma pos_float_div_zero x : pos_float x -> 0 / x = 0.
Proof.
  unfold pos_float. intros H. apply Prim2SF_inj. rewrite FloatAxioms.div_spec.
  destruct H as [(m & e & -> & _)| ->]; reflexivity.
Qed.

Lemma pos_float_one : pos_float 1.
Proof.
  left. exists 4503599627370496%positive, (-52)%Z. split; [reflexivity|].
  unfold SpecFloat.emin, prec, emax. lia.
Qed.

(** [x - x] is [+0] for a finite [x], and a NaN for an infinite one. *)
Lemma sub_diag_finite x s m e :
  Prim2SF x = S754_finite s m e -> Prim2SF (x - x) = S754_zero false.
Proof.
  intros Hx. rewrite FloatAxioms.sub_spec, Hx. unfold SF64sub, SFsub.
  rewrite Z.sub_diag. reflexivity.
Qed.

Lemma sub_one_zero q s :
  Prim2SF q = S754_zero s -> 1 - q = 1.
Proof.
  intros Hq. apply Prim2SF_inj. rewrite FloatAxioms.sub_spec, Hq. reflexivity.
Qed.

Lemma mul_one_l x : 1 * x = x.
Proof.
  apply Prim2SF_inj. rewrite FloatAxioms.mul_spec. unfold SF64mul.
  assert (Hv := Prim2SF_valid x).
  change (Prim2SF 1) with (S754_finite false 4503599627370496 (-52)).
  destruct (Prim2SF x) as [s|s| |s m e]; try reflexivity.
  unfold SFmul. simpl xorb.
  unfold valid_binary, bounded, canonical_mantissa in Hv.
  apply andb_prop in Hv as [Hc Hb].
  apply Z.eqb_eq in Hc.
  unfold binary_round_aux, shr_fexp.
  change (Zdigits2 (Zpos (4503599627370496 * m)))
    with (Zpos (digits2_pos (Pos.iter xO m 52))).
  rewrite digits2_pos_iter_xO.
  replace (Zpos (digits2_pos m) + 52 + (-52 + e))%Z
    with (Zpos (digits2_pos m) + e)%Z by lia.
  rewrite Hc.
  replace (e - (-52 + e))%Z with 52%Z by lia.
  change (shr (shr_record_of_loc (Zpos (4503599627370496 * m)) loc_Exact)
              (-52 + e) 52)
    with ({| shr_m := Zpos m; shr_r := false; shr_s := false |},
          (-52 + e + 52)%Z).
  cbv beta iota.
  change (loc_of_shr_record {| shr_m := Zpos m; shr_r := false; shr_s := false |})
    with loc_Exact.
  change (shr_m {| shr_m := Zpos m; shr_r := false; shr_s := false |})
    with (Zpos m).
  change (round_nearest_even (Zpos m) loc_Exact) with (Zpos m).
  change (Zdigits2 (Zpos m)) with (Zpos (digits2_pos m)).
  replace (-52 + e + 52)%Z with e by lia.
  rewrite Hc, Z.sub_diag.
  change (shr (shr_record_of_loc (Zpos m) loc_Exact) e 0)
    with ({| shr_m := Zpos m; shr_r := false; shr_s := false |}, e).
  cbv beta iota.
  change (shr_m {| shr_m := Zpos m; shr_r := false; shr_s := false |})
    with (Zpos m).
  cbv beta iota. rewrite Hb. reflexivity.
Qed.

End FloatArith.

(** ** calculate_standard_aqi *)

Section StandardAqiFacts.
Import FloatOrder.

Lemma breakpoints_cases pollutant table :
  breakpoints !! pollutant = Some table ->
  table = pm25_table \/ table = pm10_table \/ table = o3_table.
Proof.
  unfold breakpoints. intros H.
  destruct (decide (pollutant = "pm25")) as [->|?].
  { rewrite lookup_insert_eq in H. left. congruence. }
  rewrite lookup_insert_ne in H by congruence.
  destruct (decide (pollutant = "pm10")) as [->|?].
  { rewrite lookup_insert_eq in H. right; left. congruence. }
  rewrite lookup_insert_ne in H by congruence.
  destruct (decide (pollutant = "o3")) as [->|?].
  { rewrite lookup_insert_eq in H. right; right. congruence. }
  rewrite lookup_insert_ne, lookup_empty in H by congruence. discriminate.
Qed.

Lemma breakpoints_ordered pollutant table :
  breakpoints !! pollutant = Some table -> ordered table = true.
Proof.
  intros H. destruct (breakpoints_cases _ _ H) as [->|[->| ->]];
    vm_compute; reflexivity.
Qed.

Lemma scan_skip t rest c :
  in_range t c = false -> scan (t :: rest) c = scan rest c.
Proof. intros H. simpl. rewrite H. reflexivity. Qed.

Lemma above_not_in_range t c :
  PrimFloat.ltb (bphi t) c = true -> in_range t c = false.
Proof.
  intros H. unfold in_range. rewrite (ltb_not_leb _ _ H).
  apply andb_false_r.
Qed.

Lemma below_not_in_range t c :
  PrimFloat.ltb c (bplo t) = true -> in_range t c = false.
Proof.
  intros H. unfold in_range. rewrite (ltb_not_leb _ _ H). reflexivity.
Qed.

Lemma scan_above table c : above_table c table -> scan table c = Ret 500%Z.
Proof.
  induction 1 as [|t rest Ht _ IH]; [reflexivity|].
  rewrite scan_skip by (apply above_not_in_range, Ht). exact IH.
Qed.

Lemma scan_below table t c :
  ordered table = true -> head table = Some t ->
  PrimFloat.ltb c (bplo t) = true -> scan table c = Ret 500%Z.
Proof.
  revert t. induction table as [|t0 rest IH]; intros t Hord Hhd Hlt.
  { reflexivity. }
  simpl in Hhd. injection Hhd as ->.
  rewrite scan_skip by (apply below_not_in_range, Hlt).
  simpl in Hord. apply andb_prop in Hord as [Hord Hrest].
  apply andb_prop in Hord as [Hle Hnext].
  destruct rest as [|t1 rest']; [reflexivity|].
  apply (IH t1 Hrest eq_refl).
  eapply ltb_trans; [|exact Hnext].
  eapply ltb_leb_trans; eassumption.
Qed.

Lemma ordered_bphi_lt t rest j t' :
  ordered (t :: rest) = true -> rest !! j = Some t' ->
  PrimFloat.ltb (bphi t) (bphi t') = true.
Proof.
  revert t j. induction rest as [|t1 rest' IH]; intros t j Hord Hj.
  { discriminate. }
  cbn [ordered] in Hord. apply andb_prop in Hord as [Hord Hrest].
  apply andb_prop in Hord as [_ Hnext].
  assert (Hle1 : PrimFloat.leb (bplo t1) (bphi t1) = true).
  { cbn [ordered] in Hrest. apply andb_prop in Hrest as [Hrest _].
    apply andb_prop in Hrest as [Hrest _]. exact Hrest. }
  assert (Hstep : PrimFloat.ltb (bphi t) (bphi t1) = true)
    by (eapply ltb_leb_trans; eassumption).
  destruct j as [|j'].
  - simpl in Hj. injection Hj as <-. exact Hstep.
  - simpl in Hj. eapply ltb_trans; [exact Hstep|]. eapply IH; eassumption.
Qed.

Lemma scan_gap table i t1 t2 c :
  ordered table = true ->
  table !! i = Some t1 -> table !! S i = Some t2 ->
  PrimFloat.ltb (bphi t1) c = true -> PrimFloat.ltb c (bplo t2) = true ->
  scan table c = Ret 500%Z.
Proof.
  revert i. induction table as [|t rest IH]; intros i Hord H1 H2 Hlo Hhi.
  { discriminate. }
  assert (Hrest : ordered rest = true).
  { cbn [ordered] in Hord. apply andb_prop in Hord as [_ Hrest]. exact Hrest. }
  destruct i as [|i'].
  - simpl in H1. injection H1 as ->.
    rewrite scan_skip by (apply above_not_in_range, Hlo).
    simpl in H2. apply (scan_below rest t2 c Hrest); [|exact Hhi].
    destruct rest; [discriminate|]. simpl in H2. simpl. exact H2.
  - simpl in H1.
    rewrite scan_skip.
    + apply (IH i' Hrest H1); [|exact Hlo|exact Hhi]. exact H2.
    + apply above_not_in_range. eapply ltb_trans; [|exact Hlo].
      eapply ordered_bphi_lt; eassumption.
Qed.

Lemma round_error_class x e :
  Py.round x = Raise e -> exn_class e ∈ standard_aqi_errors.
Proof.
  unfold Py.round, standard_aqi_errors.
  destruct (Prim2SF x); intros H; try discriminate;
    injection H as <-; simpl; set_solver.
Qed.

Lemma truediv_error_class x y e :
  truediv x y = Raise e -> exn_class e ∈ standard_aqi_errors.
Proof.
  unfold truediv, standard_aqi_errors.
  destruct (PrimFloat.eqb y 0); intros H; try discriminate.
  injection H as <-. simpl. set_solver.
Qed.

Lemma scan_error_class table c e :
  scan table c = Raise e -> exn_class e ∈ standard_aqi_errors.
Proof.
  induction table as [|t rest IH]; simpl; [discriminate|].
  destruct (in_range t c); [|exact IH].
  unfold interpolate.
  destruct (truediv _ _) as [slope|e'] eqn:Hdiv; simpl.
  - apply round_error_class.
  - intros H. injection H as <-. eapply truediv_error_class, Hdiv.
Qed.

Lemma standard_aqi_error_class c pollutant e :
  calculate_standard_aqi c pollutant = Raise e ->
  exn_class e ∈ standard_aqi_errors.
Proof.
  unfold calculate_standard_aqi.
  destruct (breakpoints !! pollutant) as [table|].
  - apply scan_error_class.
  - intros H. injection H as <-. unfold standard_aqi_errors. simpl. set_solver.
Qed.

End StandardAqiFacts.

(** C1 (failing input).  The claim is that [calculate_standard_aqi] is
    non-decreasing in the concentration.  The pm25 table leaves the
    concentrations strictly between 12.0 and 12.1 uncovered, and the loop
    falls through to the final [return 500] for them: 12.05 <= 12.1, yet
    the index of 12.05 is 500 and the index of 12.1 is 51. *)
Theorem standard_aqi_not_monotone_at_gap :
  PrimFloat.leb 0 12.05 = true
  /\ PrimFloat.leb 12.05 12.1 = true
  /\ calculate_standard_aqi 12.05 "pm25" = Ret 500%Z
  /\ calculate_standard_aqi 12.1 "pm25" = Ret 51%Z
  /\ (51 < 500)%Z.
Proof. repeat split; vm_compute; reflexivity. Qed.

(** C6.  For pm25 the concentration 12.0 has index 50 and 12.1 has index
    51.  In every table both edges of a tuple belong to the tuple (the
    lower edge has index [ilo], the upper edge [ihi]), and every tuple ends
    strictly below the start of the next: adjacent tuples do not overlap. *)
Theorem pm25_boundary_indices :
  calculate_standard_aqi 12.0 "pm25" = Ret 50%Z
  /\ calculate_standard_aqi 12.1 "pm25" = Ret 51%Z
  /\ (edges_inclusive "pm25" pm25_table
      /\ edges_inclusive "pm10" pm10_table
      /\ edges_inclusive "o3" o3_table)
  /\ (ordered pm25_table = true
      /\ ordered pm10_table = true
      /\ ordered o3_table = true).
Proof.
  split; [vm_compute; reflexivity|].
  split; [vm_compute; reflexivity|].
  split.
  - unfold edges_inclusive, pm25_table, pm10_table, o3_table.
    repeat split; repeat (constructor; [split; vm_compute; reflexivity|]).
    all: constructor.
  - repeat split; vm_compute; reflexivity.
Qed.

(** C7.  For every pollutant with a breakpoint table, a concentration
    above the range of every tuple of the table yields 500, returned and
    not raised. *)
Theorem standard_aqi_saturates (concentration : float) (pollutant : string)
    (table : list breakpoint) :
  breakpoints !! pollutant = Some table ->
  above_table concentration table ->
  calculate_standard_aqi concentration pollutant = Ret 500%Z.
Proof.
  intros Htable Habove. unfold calculate_standard_aqi. rewrite Htable.
  apply scan_above, Habove.
Qed.

(** C7, instance: [calculate_standard_aqi(1000, "pm25")] is 500. *)
Lemma standard_aqi_saturates_1000 :
  (breakpoints !! "pm25" = Some pm25_table /\ above_table 1000 pm25_table)
  /\ calculate_standard_aqi 1000 "pm25" = Ret 500%Z.
Proof.
  assert (Ht : breakpoints !! "pm25" = Some pm25_table) by reflexivity.
  assert (Ha : above_table 1000 pm25_table)
    by (unfold above_table, pm25_table; repeat constructor).
  split; [split; assumption|].
  exact (standard_aqi_saturates 1000 "pm25" pm25_table Ht Ha).
Defined.

(** C10.  For every pollutant with a breakpoint table, a concentration
    strictly between the upper bound of one tuple and the lower bound of
    the next matches no tuple and the function returns 500 for it.  The
    tables are not validated: whatever the arguments, no exception of
    class ConfigurationError is raised. *)
Theorem standard_aqi_gap_returns_500 (concentration : float) (pollutant : string)
    (table : list breakpoint) (i : nat) (t1 t2 : breakpoint) :
  breakpoints !! pollutant = Some table ->
  table !! i = Some t1 ->
  table !! S i = Some t2 ->
  PrimFloat.ltb (bphi t1) concentration = true ->
  PrimFloat.ltb concentration (bplo t2) = true ->
  in_range t1 concentration = false
  /\ in_range t2 concentration = false
  /\ calculate_standard_aqi concentration pollutant = Ret 500%Z
  /\ (forall c p e, calculate_standard_aqi c p = Raise e ->
                    exn_class e <> "ConfigurationError").
Proof.
  intros Htable H1 H2 Hlo Hhi.
  split; [apply above_not_in_range, Hlo|].
  split; [apply below_not_in_range, Hhi|].
  split.
  - unfold calculate_standard_aqi. rewrite Htable.
    exact (scan_gap table i t1 t2 concentration
             (breakpoints_ordered _ _ Htable) H1 H2 Hlo Hhi).
  - intros c p e He Hcls.
    apply standard_aqi_error_class in He. rewrite Hcls in He.
    apply list_elem_of_In in He. simpl in He.
    intuition discriminate.
Qed.

(** C10, instance: pm25 concentration 12.05, between 12.0 and 12.1. *)
Lemma standard_aqi_gap_1205 :
  (breakpoints !! "pm25" = Some pm25_table
   /\ pm25_table !! 0%nat = Some (Breakpoint 0 12.0 0 50)
   /\ pm25_table !! 1%nat = Some (Breakpoint 12.1 35.4 51 100)
   /\ PrimFloat.ltb 12.0 12.05 = true
   /\ PrimFloat.ltb 12.05 12.1 = true)
  /\ calculate_standard_aqi 12.05 "pm25" = Ret 500%Z.
Proof.
  split; [repeat split|].
  exact (proj1 (proj2 (proj2
    (standard_aqi_gap_returns_500 12.05 "pm25" pm25_table 0
       (Breakpoint 0 12.0 0 50) (Breakpoint 12.1 35.4 51 100)
       eq_refl eq_refl eq_refl eq_refl eq_refl)))).
Defined.

(** ** forecast_3_days *)

Section ForecastFacts.
Variable predict : frame -> result float.

Lemma forecast_step_ret current pred t :
  predict (features current) = Ret pred ->
  current !! "timestamp" = Some (PyTimestamp t) ->
  forecast_step predict current =
    Ret (pred, update_time (t + 3600)
                 (<["pm25" := PyFloat pred]> (update_lags pred current))).
Proof.
  intros Hp Ht. unfold forecast_step, next_timestamp.
  rewrite Hp, Ht. reflexivity.
Qed.

Lemma forecast_step_raise current e :
  predict (features current) = Raise e ->
  forecast_step predict current = Raise e.
Proof. intros Hp. unfold forecast_step. rewrite Hp. reflexivity. Qed.

Lemma update_time_timestamp t current :
  update_time t current !! "timestamp" = Some (PyTimestamp t).
Proof. unfold update_time. by simplify_map_eq. Qed.

(** Running [k + j] iterations is running [k] and then [j]. *)
Lemma forecast_loop_add k j preds current :
  forecast_loop predict (k + j) preds current =
    match forecast_loop predict k preds current with
    | Ret (preds', current') => forecast_loop predict j preds' current'
    | Raise e => Raise e
    end.
Proof.
  revert preds current. induction k as [|k IH]; intros preds current.
  { reflexivity. }
  simpl. destruct (forecast_step predict current) as [[p c]|e]; simpl.
  - apply IH.
  - reflexivity.
Qed.

End ForecastFacts.

Section TotalModel.
Variable f : frame -> float.

Lemma forecast_loop_total n preds current t :
  current !! "timestamp" = Some (PyTimestamp t) ->
  exists new state,
    forecast_loop (total_model f) n preds current = Ret (preds ++ new, state)
    /\ length new = n
    /\ state !! "timestamp" = Some (PyTimestamp (t + 3600 * Z.of_nat n)).
Proof.
  revert preds current t. induction n as [|n IH]; intros preds current t Ht.
  { exists [], current. rewrite app_nil_r.
    split; [reflexivity|]. split; [reflexivity|].
    rewrite Ht. do 2 f_equal. lia. }
  simpl.
  rewrite (forecast_step_ret (total_model f) current
             (f (features current)) t eq_refl Ht).
  simpl.
  destruct (IH (preds ++ [f (features current)])
               (update_time (t + 3600)
                  (<["pm25" := PyFloat (f (features current))]>
                     (update_lags (f (features current)) current)))
               (t + 3600)%Z (update_time_timestamp _ _))
    as (new & state & Hloop & Hlen & Hts).
  exists (f (features current) :: new), state.
  rewrite Hloop, <- app_assoc. simpl. repeat split.
  - rewrite Hlen. reflexivity.
  - rewrite Hts. do 2 f_equal. lia.
Qed.

Lemma forecast_loop_total_prefix n k latest t :
  (k < n)%nat ->
  latest !! "timestamp" = Some (PyTimestamp t) ->
  exists preds state_n state_k,
    forecast_loop (total_model f) n [] latest = Ret (preds, state_n)
    /\ length preds = n
    /\ forecast_loop (total_model f) k [] latest = Ret (take k preds, state_k)
    /\ state_k !! "timestamp" = Some (PyTimestamp (t + 3600 * Z.of_nat k))
    /\ preds !! k = Some (f (features state_k)).
Proof.
  intros Hk Ht.
  destruct (forecast_loop_total k [] latest t Ht)
    as (pk & sk & Hloopk & Hlenk & Htsk).
  simpl in Hloopk.
  assert (Hn : n = (k + S (n - k - 1))%nat) by lia.
  assert (IHrest : exists new state,
      forecast_loop (total_model f) (n - k - 1)
        (pk ++ [f (features sk)])
        (update_time (t + 3600 * Z.of_nat k + 3600)
           (<["pm25" := PyFloat (f (features sk))]>
              (update_lags (f (features sk)) sk))) =
        Ret ((pk ++ [f (features sk)]) ++ new, state)
      /\ length new = (n - k - 1)%nat).
  { destruct (forecast_loop_total (n - k - 1) (pk ++ [f (features sk)])
                (update_time (t + 3600 * Z.of_nat k + 3600)
                   (<["pm25" := PyFloat (f (features sk))]>
                      (update_lags (f (features sk)) sk)))
                _ (update_time_timestamp _ _)) as (new & state & H1 & H2 & _).
    exists new, state. split; assumption. }
  destruct IHrest as (new & state & Hrest & Hlen).
  exists ((pk ++ [f (features sk)]) ++ new), state, sk.
  split.
  { rewrite Hn, forecast_loop_add, Hloopk. simpl.
    rewrite (forecast_step_ret (total_model f) sk (f (features sk)) _
               eq_refl Htsk).
    simpl. exact Hrest. }
  split.
  { rewrite !length_app, Hlenk, Hlen. simpl. lia. }
  split.
  { rewrite Hloopk. do 2 f_equal. rewrite <- app_assoc.
    rewrite take_app_length'; [reflexivity|symmetry; exact Hlenk]. }
  split; [exact Htsk|].
  rewrite <- app_assoc. rewrite lookup_app_r by lia.
  rewrite Hlenk. replace (k - k)%nat with 0%nat by lia. reflexivity.
Qed.

End TotalModel.

(** C3 (as amended).  [forecast_3_days] has no horizon parameter: it runs
    [HOURS_AHEAD = 72] iterations and, with a model that does not raise,
    returns exactly 72 raw pollutant predictions.  Prediction [k] is the
    model's output on the frame left by the first [k] iterations, whose
    timestamp is the seed timestamp plus [k] hours.  The loop run for zero
    iterations returns the empty list. *)
Theorem forecast_returns_raw_predictions (f : frame -> float) (latest : frame)
    (t : Z) :
  latest !! "timestamp" = Some (PyTimestamp t) ->
  (exists preds,
      forecast_3_days (total_model f) latest = Ret preds
      /\ length preds = 72%nat
      /\ forall k, (k < 72)%nat ->
           exists state_k,
             forecast_loop (total_model f) k [] latest
               = Ret (take k preds, state_k)
             /\ state_k !! "timestamp"
                = Some (PyTimestamp (t + 3600 * Z.of_nat k))
             /\ preds !! k = Some (f (features state_k)))
  /\ forecast_loop (total_model f) 0 [] latest = Ret ([], latest).
Proof.
  intros Ht. split; [|reflexivity].
  destruct (forecast_loop_total f 72 [] latest t Ht)
    as (preds & state & Hloop & Hlen & _).
  simpl app in Hloop.
  exists preds. split; [|split; [exact Hlen|]].
  { unfold forecast_3_days, HOURS_AHEAD. rewrite Hloop. reflexivity. }
  intros k Hk.
  destruct (forecast_loop_total_prefix f 72 k latest t Hk Ht)
    as (preds' & state_n & state_k & Hloop' & _ & Hk1 & Hk2 & Hk3).
  rewrite Hloop in Hloop'. injection Hloop' as <- <-.
  exists state_k. repeat split; assumption.
Qed.

(** C3, instance: the model that always predicts 5, on [seed_row]. *)
Lemma forecast_returns_raw_predictions_const5 :
  seed_row !! "timestamp" = Some (PyTimestamp 0)
  /\ exists preds,
       forecast_3_days const5 seed_row = Ret preds
       /\ length preds = 72%nat.
Proof.
  split; [reflexivity|].
  destruct (proj1 (forecast_returns_raw_predictions
                     (fun _ => 5%float) seed_row 0 eq_refl))
    as (preds & Hret & Hlen & _).
  exists preds. split; assumption.
Defined.

(** C3 (the claim as stated fails).  The value returned for the constant
    model is the list of 72 floats [5.0]; it is not a series of
    (timestamp, index) pairs: its first entry is the float [5.0], where
    the series has the pair of 01:00 and the index 21 of 5.0. *)
Lemma forecast_output_is_not_a_series :
  forecast_3_days const5 seed_row = Ret (replicate 72 5%float)
  /\ calculate_standard_aqi 5 "pm25" = Ret 21%Z
  /\ ~ is_forecast_series 0 (replicate 72 5%float)
         (PyFloat <$> replicate 72 5%float).
Proof.
  split; [vm_compute; reflexivity|].
  split; [vm_compute; reflexivity|].
  intros [_ H]. destruct (H 0%nat 5%float eq_refl) as (aqi & _ & Hout).
  simpl in Hout. discriminate Hout.
Qed.

(** C4 (as amended).  If the model raises [e] at step [k] (the first [k]
    iterations having succeeded), [forecast_3_days] raises that same
    exception [e], unchanged: nothing is returned, and the exception is
    not wrapped and carries no step index. *)
Theorem forecast_propagates_model_error (predict : frame -> result float)
    (latest : frame) (k : nat) (preds : list float) (state : frame) (e : exn) :
  (k < HOURS_AHEAD)%nat ->
  forecast_loop predict k [] latest = Ret (preds, state) ->
  predict (features state) = Raise e ->
  forecast_3_days predict latest = Raise e.
Proof.
  intros Hk Hloop Hraise. unfold forecast_3_days.
  replace HOURS_AHEAD with (k + S (HOURS_AHEAD - k - 1))%nat by lia.
  rewrite forecast_loop_add, Hloop. simpl.
  rewrite (forecast_step_raise predict state e Hraise). reflexivity.
Qed.

(** C4, instance: the model fails on the row of 02:00, which is step 2. *)
Lemma forecast_propagates_model_error_step2 :
  ((2 < HOURS_AHEAD)%nat
   /\ forecast_loop (fail_at_hour 2) 2 [] seed_row
      = Ret ([5%float; 5%float], state_before_step2)
   /\ fail_at_hour 2 (features state_before_step2) = Raise model_error)
  /\ forecast_3_days (fail_at_hour 2) seed_row = Raise model_error.
Proof.
  assert (Hk : (2 < HOURS_AHEAD)%nat) by (unfold HOURS_AHEAD; lia).
  assert (Hloop : forecast_loop (fail_at_hour 2) 2 [] seed_row
                  = Ret ([5%float; 5%float], state_before_step2))
    by (vm_compute; reflexivity).
  assert (Hraise : fail_at_hour 2 (features state_before_step2)
                   = Raise model_error)
    by (vm_compute; reflexivity).
  split; [repeat split; assumption|].
  exact (forecast_propagates_model_error (fail_at_hour 2) seed_row 2
           [5%float; 5%float] state_before_step2 model_error Hk Hloop Hraise).
Defined.

(** C4 (the claim as stated fails).  With a model failing at step 2 the
    exception raised is the model's own, not a ForecastStepFailed carrying
    2; a failure at step 5 raises the very same exception, so the step
    cannot be read off it. *)
Lemma forecast_error_has_no_step :
  forecast_3_days (fail_at_hour 2) seed_row = Raise model_error
  /\ forecast_3_days (fail_at_hour 5) seed_row = Raise model_error
  /\ model_error <> Spec.ForecastStepFailed 2.
Proof.
  split; [vm_compute; reflexivity|].
  split; [vm_compute; reflexivity|].
  discriminate.
Qed.

(** C5.  One forecast step on a frame holding the columns pm25_lag_1h and
    pm25_lag_3h moves the old lag-3h value into pm25_lag_6h, the old lag-1h
    value into pm25_lag_3h, and the new prediction into pm25_lag_1h. *)
Theorem forecast_step_shifts_lags (predict : frame -> result float)
    (current : frame) (pred : float) (t : Z) (lag1 lag3 : pyobj) :
  predict (features current) = Ret pred ->
  current !! "timestamp" = Some (PyTimestamp t) ->
  current !! "pm25_lag_1h" = Some lag1 ->
  current !! "pm25_lag_3h" = Some lag3 ->
  exists current',
    forecast_step predict current = Ret (pred, current')
    /\ current' !! "pm25_lag_1h" = Some (PyFloat pred)
    /\ current' !! "pm25_lag_3h" = Some lag1
    /\ current' !! "pm25_lag_6h" = Some lag3.
Proof.
  intros Hp Ht H1 H3. eexists. split.
  { apply forecast_step_ret; eassumption. }
  unfold update_time, update_lags.
  rewrite decide_True by (rewrite H1; eexists; reflexivity).
  rewrite H3. simplify_map_eq. repeat split; reflexivity.
Qed.

(** C5, instance: lags 10, 20, 30 and a model that always predicts 5 give
    lags 5, 10, 20 after one step. *)
Lemma forecast_step_shifts_lags_10_20_30 :
  (const5 (features seed_row) = Ret 5%float
   /\ seed_row !! "timestamp" = Some (PyTimestamp 0)
   /\ seed_row !! "pm25_lag_1h" = Some (PyFloat 10)
   /\ seed_row !! "pm25_lag_3h" = Some (PyFloat 20)
   /\ seed_row !! "pm25_lag_6h" = Some (PyFloat 30))
  /\ exists current',
       forecast_step const5 seed_row = Ret (5%float, current')
       /\ current' !! "pm25_lag_1h" = Some (PyFloat 5)
       /\ current' !! "pm25_lag_3h" = Some (PyFloat 10)
       /\ current' !! "pm25_lag_6h" = Some (PyFloat 20).
Proof.
  split; [repeat split|].
  exact (forecast_step_shifts_lags const5 seed_row 5 0 (PyFloat 10)
           (PyFloat 20) eq_refl eq_refl eq_refl eq_refl).
Defined.

(** ** calculate_nowcast and compare_aqi *)

Section NowcastFacts.
Import FloatOrder FloatArith.

Lemma min_from_repeat c n : min_from c (repeat c n) = c.
Proof.
  unfold min_from. induction n as [|n IH]; [reflexivity|].
  simpl. rewrite ltb_irrefl. exact IH.
Qed.

Lemma max_from_repeat c n : max_from c (repeat c n) = c.
Proof.
  unfold max_from. induction n as [|n IH]; [reflexivity|].
  simpl. rewrite ltb_irrefl. exact IH.
Qed.

Lemma rev_repeat_eq (c : float) n : rev (repeat c n) = repeat c n.
Proof.
  induction n as [|n IH]; [reflexivity|].
  simpl. rewrite IH. clear IH.
  induction n as [|n IH]; [reflexivity|]. simpl. rewrite IH. reflexivity.
Qed.

Lemma imap_same {A} (g : nat -> A -> A) (l : list A) :
  (forall i x, g i x = x) -> imap g l = l.
Proof.
  revert g. induction l as [|x l IH]; intros g Hg; [reflexivity|].
  simpl. rewrite Hg. f_equal. apply IH. intros i y. apply Hg.
Qed.

Lemma map_seq_const {A} (g : nat -> A) (a : A) start n :
  (forall i, g i = a) -> map g (seq start n) = repeat a n.
Proof.
  intros Hg. revert start. induction n as [|n IH]; intros start; [reflexivity|].
  simpl. rewrite Hg, IH. reflexivity.
Qed.

(** The weight computed from [c_min = c_max = c] is exactly [1.0]: for a
    finite positive [c] the scaled rate is [+0]; for the infinity it is a
    NaN, which [min(1.0, w)] discards. *)
Lemma unit_weight c :
  PrimFloat.ltb 0 c = true ->
  max_from 0.5 [min_from 1.0
                  [PrimFloat.sub 1 (PrimFloat.div (PrimFloat.sub c c) c)]]
  = 1%float.
Proof.
  intros Hpos.
  assert (Hmin : min_from 1.0
                   [PrimFloat.sub 1 (PrimFloat.div (PrimFloat.sub c c) c)]
                 = 1%float).
  { rewrite FloatAxioms.ltb_spec in Hpos.
    change (Prim2SF 0) with (S754_zero false) in Hpos.
    destruct (Prim2SF c) as [s|s| |s m e] eqn:Hc;
      try discriminate Hpos; destruct s; try discriminate Hpos.
    - (* the infinity *)
      unfold min_from. simpl.
      rewrite FloatAxioms.ltb_spec, !FloatAxioms.sub_spec,
        FloatAxioms.div_spec, FloatAxioms.sub_spec, Hc.
      reflexivity.
    - (* a finite positive value *)
      rewrite (sub_one_zero _ false); [reflexivity|].
      rewrite FloatAxioms.div_spec, (sub_diag_finite c _ _ _ Hc), Hc.
      reflexivity. }
  rewrite Hmin. reflexivity.
Qed.

Lemma weight_constant c :
  PrimFloat.leb 0 c = true -> weight c c = Ret 1%float.
Proof.
  intros _. unfold weight.
  destruct (PrimFloat.ltb 0 c) eqn:Hpos; [|reflexivity].
  unfold truediv. rewrite (ltb_not_eqb 0 c Hpos).
  unfold mbind, result_bind.
  rewrite (unit_weight c Hpos). reflexivity.
Qed.

Lemma sum_ones_pos n a :
  pos_float a -> pos_float (fold_left PrimFloat.add (repeat 1%float n) a).
Proof.
  revert a. induction n as [|n IH]; intros a Ha; [exact Ha|].
  simpl. apply IH. apply pos_float_add; [exact Ha|exact pos_float_one].
Qed.

Lemma sum_ones_pos_float n : (0 < n)%nat -> pos_float (Py.sum (repeat 1%float n)).
Proof.
  destruct n as [|n]; [lia|]. intros _. unfold Py.sum. simpl.
  apply sum_ones_pos. exact pos_float_one.
Qed.

Lemma sum_zeros n : Py.sum (repeat 0%float n) = 0%float.
Proof.
  unfold Py.sum. induction n as [|n IH]; [reflexivity|]. simpl. exact IH.
Qed.

Lemma standard_aqi_zero pollutant :
  is_Some (breakpoints !! pollutant) ->
  calculate_standard_aqi 0 pollutant = Ret 0%Z.
Proof.
  intros [table Ht]. unfold calculate_standard_aqi. rewrite Ht.
  destruct (breakpoints_cases _ _ Ht) as [->|[->| ->]];
    vm_compute; reflexivity.
Qed.

Section WithPow.
Variable float_pow : float -> Z -> float.
Hypothesis float_pow_one : forall t, float_pow 1 t = 1%float.

Lemma numerator_unit_weight xs :
  numerator float_pow 1 xs = Py.sum (rev xs).
Proof.
  unfold numerator. f_equal. apply imap_same.
  intros i x. rewrite float_pow_one. apply mul_one_l.
Qed.

Lemma denominator_unit_weight xs :
  denominator float_pow 1 xs = Py.sum (repeat 1%float (length xs)).
Proof.
  unfold denominator. f_equal. apply map_seq_const.
  intros i. apply float_pow_one.
Qed.

Lemma nowcast_concentration_constant c n :
  (0 < n)%nat ->
  nowcast_concentration float_pow 1 (repeat c n)
  = Ret (PrimFloat.div (Py.sum (repeat c n)) (Py.sum (repeat 1%float n))).
Proof.
  intros Hn. unfold nowcast_concentration.
  rewrite numerator_unit_weight, denominator_unit_weight.
  rewrite rev_repeat_eq, repeat_length.
  unfold truediv.
  rewrite (pos_float_eqb_zero _ (sum_ones_pos_float n Hn)). reflexivity.
Qed.

End WithPow.
End NowcastFacts.

Lemma pow_ref_one t : pow_ref 1 t = 1%float.
Proof.
  unfold pow_ref. induction (Z.to_nat t) as [|n IH]; [reflexivity|].
  simpl. rewrite IH. reflexivity.
Qed.

Lemma float_of_length_pos (n : nat) :
  (0 < n)%nat -> (Z.of_nat n < 2 ^ 63)%Z ->
  pos_float (float_of_Z (Z.of_nat n)).
Proof.
  intros Hn Hmax. unfold float_of_Z.
  destruct (Z.of_nat n) as [|p|p] eqn:Hz; try lia.
  apply FloatArith.pos_float_of_uint63.
  rewrite Uint63.of_Z_spec.
  rewrite Z.mod_small; [lia|]. change wB with (2 ^ 63)%Z. lia.
Qed.

(** C2 (as amended).  On the empty window [calculate_nowcast] returns
    [None], whatever the pollutant; it raises nothing. *)
Theorem nowcast_empty_window_returns_none (float_pow : float -> Z -> float)
    (pollutant : string) :
  calculate_nowcast float_pow [] pollutant = Ret None.
Proof. unfold calculate_nowcast. reflexivity. Qed.

(** C2 (the claim as stated fails).  The empty window does not fail with
    EmptyWindow: the call returns, and what it returns is the sentinel
    [None]. *)
Lemma nowcast_empty_window_is_not_an_error :
  calculate_nowcast pow_ref [] "pm25" = Ret None
  /\ calculate_nowcast pow_ref [] "pm25" <> Raise Spec.EmptyWindow.
Proof. split; [reflexivity|discriminate]. Qed.

(** C8 (as amended).  For a non-empty window whose samples all equal
    [c >= 0], the weight is exactly [1.0]; the smoothed concentration is
    the binary64 quotient of the sum of the samples by the sum of as many
    [1.0], and the returned index is the standard index of that quotient.
    For the all-zero window and a pollutant with a table the index is 0,
    and no division by zero occurs. *)
Theorem nowcast_constant_window (float_pow : float -> Z -> float) (c : float)
    (n : nat) (pollutant : string) :
  (forall t, float_pow 1%float t = 1%float) ->
  PrimFloat.leb 0 c = true ->
  (0 < n)%nat ->
  window_weight c (repeat c (n - 1)) = Ret 1%float
  /\ nowcast_concentration float_pow 1 (repeat c n)
     = Ret (PrimFloat.div (Py.sum (repeat c n)) (Py.sum (repeat 1%float n)))
  /\ calculate_nowcast float_pow (repeat c n) pollutant
     = (aqi ← calculate_standard_aqi
                (PrimFloat.div (Py.sum (repeat c n)) (Py.sum (repeat 1%float n)))
                pollutant;
        Ret (Some aqi))
  /\ (c = 0%float -> is_Some (breakpoints !! pollutant) ->
      calculate_nowcast float_pow (repeat c n) pollutant = Ret (Some 0%Z)).
Proof.
  intros Hpow Hc Hn.
  assert (Hw : window_weight c (repeat c (n - 1)) = Ret 1%float).
  { unfold window_weight. rewrite min_from_repeat, max_from_repeat.
    apply weight_constant, Hc. }
  assert (Hconc := nowcast_concentration_constant float_pow Hpow c n Hn).
  assert (Hcall : calculate_nowcast float_pow (repeat c n) pollutant
     = (aqi ← calculate_standard_aqi
                (PrimFloat.div (Py.sum (repeat c n)) (Py.sum (repeat 1%float n)))
                pollutant;
        Ret (Some aqi))).
  { destruct n as [|k]; [lia|].
    replace (S k - 1)%nat with k in Hw by lia.
    change (repeat c (S k)) with (c :: repeat c k) in *.
    unfold calculate_nowcast. rewrite Hw.
    unfold mbind at 1. unfold result_bind at 1.
    rewrite Hconc. reflexivity. }
  split; [exact Hw|]. split; [exact Hconc|]. split; [exact Hcall|].
  intros -> Hsome. rewrite Hcall, sum_zeros.
  rewrite (FloatArith.pos_float_div_zero _ (sum_ones_pos_float n Hn)).
  rewrite (standard_aqi_zero pollutant Hsome). reflexivity.
Qed.

(** C8, instance: twelve samples of 0 on pm25. *)
Lemma nowcast_constant_window_zeros :
  ((forall t, pow_ref 1 t = 1%float)
   /\ PrimFloat.leb 0 0 = true
   /\ (0 < 12)%nat)
  /\ window_weight 0 (repeat 0%float 11) = Ret 1%float
  /\ calculate_nowcast pow_ref (repeat 0%float 12) "pm25" = Ret (Some 0%Z).
Proof.
  assert (Hn : (0 < 12)%nat) by lia.
  assert (Hc : PrimFloat.leb 0 0 = true) by reflexivity.
  split; [split; [exact pow_ref_one|split; assumption]|].
  destruct (nowcast_constant_window pow_ref 0 12 "pm25" pow_ref_one Hc Hn)
    as (Hw & _ & _ & Hzero).
  split; [exact Hw|].
  apply Hzero; [reflexivity|]. eexists. reflexivity.
Defined.

(** C8 (the claim as stated fails).  The smoothed concentration of a
    constant window is not always the constant: three samples of 0.1 give
    0.10000000000000002.  Nor is the index always that of the constant:
    three samples of the o3 concentration 0.2 sum to 0.6000000000000001,
    the quotient 0.20000000000000004 lies above the last tuple, and the
    index is 500 where the index of 0.2 is 300. *)
Lemma nowcast_constant_window_rounds :
  nowcast_concentration pow_ref 1 [0.1; 0.1; 0.1]%float
    = Ret 0.10000000000000002%float
  /\ 0.10000000000000002%float <> 0.1%float
  /\ window_weight 0.2 [0.2; 0.2]%float = Ret 1%float
  /\ nowcast_concentration pow_ref 1 [0.2; 0.2; 0.2]%float
     = Ret 0.20000000000000004%float
  /\ calculate_nowcast pow_ref [0.2; 0.2; 0.2]%float "o3" = Ret (Some 500%Z)
  /\ calculate_standard_aqi 0.2 "o3" = Ret 300%Z.
Proof.
  split; [vm_compute; reflexivity|].
  split; [discriminate|].
  repeat split; vm_compute; reflexivity.
Qed.

(** The windows of the lemma above have the same sums under the
    compensated summation of CPython 3.12. *)
Lemma constant_window_sums_compensated :
  sum_compensated [0.1; 0.1; 0.1]%float = Py.sum [0.1; 0.1; 0.1]%float
  /\ sum_compensated [0.2; 0.2; 0.2]%float = Py.sum [0.2; 0.2; 0.2]%float
  /\ sum_compensated [1; 1; 1]%float = Py.sum [1; 1; 1]%float.
Proof. repeat split; vm_compute; reflexivity. Qed.

(** * Further properties of the code *)

(** ** calculate_standard_aqi: pollutants, out-of-range input, tuple choice *)

Section StandardAqiMore.
Import FloatOrder.

Lemma breakpoints_lookup_none pollutant :
  pollutant ∉ ["pm25"; "pm10"; "o3"] -> breakpoints !! pollutant = None.
Proof.
  intros Hp. unfold breakpoints.
  rewrite !lookup_insert_ne, lookup_empty; [reflexivity|..];
    intros <-; apply Hp; set_solver.
Qed.

Lemma breakpoints_lookup_some pollutant :
  pollutant ∈ ["pm25"; "pm10"; "o3"] -> is_Some (breakpoints !! pollutant).
Proof.
  intros Hp. apply list_elem_of_In in Hp. simpl in Hp.
  destruct Hp as [<-|[<-|[<-|[]]]]; eexists; reflexivity.
Qed.

(** The exceptions the table scan can raise. *)
Lemma scan_error_form table c e :
  scan table c = Raise e ->
  e = ZeroDivisionError "float division by zero"
  \/ e = ValueError "cannot convert float NaN to integer"
  \/ e = OverflowError "cannot convert float infinity to integer".
Proof.
  induction table as [|t rest IH]; simpl; [discriminate|].
  destruct (in_range t c); [|exact IH].
  unfold interpolate, truediv.
  destruct (PrimFloat.eqb _ 0); simpl.
  - intros H. injection H as <-. left. reflexivity.
  - unfold Py.round. destruct (Prim2SF _); intros H; try discriminate H;
      injection H as <-; auto.
Qed.

(** X1.  [calculate_standard_aqi] raises the ValueError "No breakpoints
    defined for pollutant: ..." exactly for the pollutants other than
    pm25, pm10 and o3, whatever the concentration. *)
Theorem standard_aqi_unsupported_pollutant (concentration : float)
    (pollutant : string) :
  calculate_standard_aqi concentration pollutant
    = Raise (ValueError ("No breakpoints defined for pollutant: " +:+ pollutant))
  <-> pollutant ∉ ["pm25"; "pm10"; "o3"].
Proof.
  split.
  - intros Hraise Hin.
    destruct (breakpoints_lookup_some pollutant Hin) as [table Ht].
    unfold calculate_standard_aqi in Hraise. rewrite Ht in Hraise.
    apply scan_error_form in Hraise.
    destruct Hraise as [H|[H|H]]; simpl in H; discriminate H.
  - intros Hout. unfold calculate_standard_aqi.
    rewrite (breakpoints_lookup_none pollutant Hout). reflexivity.
Qed.

Lemma nan_not_in_range t c : Prim2SF c = S754_nan -> in_range t c = false.
Proof.
  intros Hc. unfold in_range. rewrite !FloatAxioms.leb_spec, Hc.
  destruct (Prim2SF (bplo t)) as [[]|[]| |[] ? ?]; reflexivity.
Qed.

Lemma scan_nan table c : Prim2SF c = S754_nan -> scan table c = Ret 500%Z.
Proof.
  intros Hc. induction table as [|t rest IH]; [reflexivity|].
  rewrite scan_skip by (apply nan_not_in_range, Hc). exact IH.
Qed.

(** X2.  For a pollutant with a table, a negative concentration and a NaN
    match no tuple: the function returns 500 for them; nothing is clamped
    and nothing is raised. *)
Theorem standard_aqi_negative_or_nan (concentration : float)
    (pollutant : string) (table : list breakpoint) :
  breakpoints !! pollutant = Some table ->
  PrimFloat.ltb concentration 0 = true \/ Prim2SF concentration = S754_nan ->
  calculate_standard_aqi concentration pollutant = Ret 500%Z.
Proof.
  intros Ht Hc. unfold calculate_standard_aqi. rewrite Ht.
  destruct Hc as [Hneg|Hnan]; [|apply scan_nan, Hnan].
  assert (Hord := breakpoints_ordered _ _ Ht).
  destruct (breakpoints_cases _ _ Ht) as [->|[->| ->]];
    eapply scan_below; try exact Hord; try reflexivity; exact Hneg.
Qed.

(** X2, instance: the pm25 concentration -3.5. *)
Lemma standard_aqi_negative_instance :
  (breakpoints !! "pm25" = Some pm25_table
   /\ (PrimFloat.ltb (-3.5) 0 = true \/ Prim2SF (-3.5) = S754_nan))
  /\ calculate_standard_aqi (-3.5) "pm25" = Ret 500%Z.
Proof.
  assert (Ht : breakpoints !! "pm25" = Some pm25_table) by reflexivity.
  assert (Hc : PrimFloat.ltb (-3.5) 0 = true \/ Prim2SF (-3.5) = S754_nan)
    by (left; reflexivity).
  split; [split; assumption|].
  exact (standard_aqi_negative_or_nan (-3.5) "pm25" pm25_table Ht Hc).
Defined.

Lemma ordered_tail t rest : ordered (t :: rest) = true -> ordered rest = true.
Proof.
  cbn [ordered]. intros H. apply andb_prop in H as [_ H]. exact H.
Qed.

Lemma ordered_head_le t rest :
  ordered (t :: rest) = true -> PrimFloat.leb (bplo t) (bphi t) = true.
Proof.
  cbn [ordered]. intros H. apply andb_prop in H as [H _].
  apply andb_prop in H as [H _]. exact H.
Qed.

(** In an ordered table a tuple ends strictly below the start of every
    later tuple. *)
Lemma ordered_bphi_bplo_lt t rest j t' :
  ordered (t :: rest) = true -> rest !! j = Some t' ->
  PrimFloat.ltb (bphi t) (bplo t') = true.
Proof.
  revert t j. induction rest as [|t1 rest' IH]; intros t j Hord Hj.
  { discriminate. }
  assert (Hnext : PrimFloat.ltb (bphi t) (bplo t1) = true).
  { cbn [ordered] in Hord. apply andb_prop in Hord as [Hord _].
    apply andb_prop in Hord as [_ Hord]. exact Hord. }
  destruct j as [|j']; simpl in Hj.
  - injection Hj as <-. exact Hnext.
  - eapply ltb_trans; [|eapply IH; [eapply ordered_tail, Hord|exact Hj]].
    eapply ltb_leb_trans; [exact Hnext|].
    eapply ordered_head_le, ordered_tail, Hord.
Qed.

Lemma ordered_lookup_lt table i j t t' :
  ordered table = true -> (i < j)%nat ->
  table !! i = Some t -> table !! j = Some t' ->
  PrimFloat.ltb (bphi t) (bplo t') = true.
Proof.
  revert i j. induction table as [|t0 rest IH]; intros i j Hord Hij Hi Hj.
  { discriminate. }
  destruct j as [|j']; [lia|]. simpl in Hj.
  destruct i as [|i']; simpl in Hi.
  - injection Hi as <-. eapply ordered_bphi_bplo_lt; eassumption.
  - eapply (IH i' j'); [eapply ordered_tail, Hord|lia|exact Hi|exact Hj].
Qed.

Lemma scan_first_match table i t c :
  (forall j t', (j < i)%nat -> table !! j = Some t' -> in_range t' c = false) ->
  table !! i = Some t -> in_range t c = true ->
  scan table c = interpolate t c.
Proof.
  revert i. induction table as [|t0 rest IH]; intros i Hbefore Hi Hin.
  { discriminate. }
  destruct i as [|i']; simpl in Hi.
  - injection Hi as <-. simpl. rewrite Hin. reflexivity.
  - rewrite scan_skip by (apply (Hbefore 0%nat t0); [lia|reflexivity]).
    apply (IH i'); [|exact Hi|exact Hin].
    intros j t' Hj Hl. apply (Hbefore (S j) t'); [lia|exact Hl].
Qed.

(** X3.  For a pollutant with a table, a concentration inside the range
    of a tuple is inside the range of no other tuple of the table, and the
    result of the function is the rounded interpolation in that tuple. *)
Theorem standard_aqi_unique_tuple (concentration : float) (pollutant : string)
    (table : list breakpoint) (i : nat) (t : breakpoint) :
  breakpoints !! pollutant = Some table ->
  table !! i = Some t ->
  in_range t concentration = true ->
  (forall j t', j <> i -> table !! j = Some t' ->
                in_range t' concentration = false)
  /\ calculate_standard_aqi concentration pollutant
     = interpolate t concentration.
Proof.
  intros Ht Hi Hin.
  assert (Hord := breakpoints_ordered _ _ Ht).
  assert (Hin' := Hin). unfold in_range in Hin'.
  apply andb_prop in Hin' as [Hlo Hhi].
  assert (Hother : forall j t', j <> i -> table !! j = Some t' ->
                                in_range t' concentration = false).
  { intros j t' Hne Hj.
    destruct (Nat.lt_total j i) as [Hlt|[Heq|Hgt]]; [|congruence|].
    - apply above_not_in_range. eapply ltb_leb_trans; [|exact Hlo].
      eapply ordered_lookup_lt; eassumption.
    - apply below_not_in_range. eapply leb_ltb_trans; [exact Hhi|].
      eapply ordered_lookup_lt; eassumption. }
  split; [exact Hother|].
  unfold calculate_standard_aqi. rewrite Ht.
  apply (scan_first_match table i t concentration); [|exact Hi|exact Hin].
  intros j t' Hj Hl. apply (Hother j t'); [lia|exact Hl].
Qed.

(** X3, instance: the pm25 concentration 20.0 lies in the second tuple
    only, and its index is 68. *)
Lemma standard_aqi_unique_tuple_20 :
  (breakpoints !! "pm25" = Some pm25_table
   /\ pm25_table !! 1%nat = Some (Breakpoint 12.1 35.4 51 100)
   /\ in_range (Breakpoint 12.1 35.4 51 100) 20.0 = true)
  /\ calculate_standard_aqi 20.0 "pm25"
     = interpolate (Breakpoint 12.1 35.4 51 100) 20.0
  /\ interpolate (Breakpoint 12.1 35.4 51 100) 20.0 = Ret 68%Z.
Proof.
  split; [repeat split|]. split; [|vm_compute; reflexivity].
  exact (proj2 (standard_aqi_unique_tuple 20.0 "pm25" pm25_table 1
                  (Breakpoint 12.1 35.4 51 100) eq_refl eq_refl eq_refl)).
Defined.

End StandardAqiMore.

(** ** calculate_nowcast and compare_aqi: the clamp, unsupported pollutants,
    the empty window *)

Section NowcastMore.
Import FloatOrder.

Lemma SFltb_leb x y : SFltb x y = true -> SFleb x y = true.
Proof.
  unfold SFltb, SFleb. destruct (SFcompare x y) as [[]|]; congruence.
Qed.

Lemma ltb_leb x y : PrimFloat.ltb x y = true -> PrimFloat.leb x y = true.
Proof. rewrite FloatAxioms.ltb_spec, FloatAxioms.leb_spec. apply SFltb_leb. Qed.

(** [max(0.5, min(1.0, w))] lies between 0.5 and 1.0 for every float [w],
    a NaN included. *)
Lemma clamp_bounds w :
  PrimFloat.leb 0.5 (max_from 0.5 [min_from 1.0 [w]]) = true
  /\ PrimFloat.leb (max_from 0.5 [min_from 1.0 [w]]) 1 = true.
Proof.
  unfold max_from, min_from. simpl.
  destruct (PrimFloat.ltb w 1) eqn:H1.
  - destruct (PrimFloat.ltb 0.5 w) eqn:H2.
    + split; apply ltb_leb; assumption.
    + split; reflexivity.
  - split; reflexivity.
Qed.

Lemma result_bind_ret {A B} (a : A) (k : A -> result B) :
  (Ret a ≫= k) = k a.
Proof. reflexivity. Qed.

Lemma result_bind_raise {A B} (e : exn) (k : A -> result B) :
  (Raise e ≫= k) = Raise e.
Proof. reflexivity. Qed.

(** X4.  Whatever the minimum and the maximum of the window, the weight
    factor is computed without error and lies between 0.5 and 1.0. *)
Theorem nowcast_weight_bounds (c_min c_max : float) :
  exists w, weight c_min c_max = Ret w
            /\ PrimFloat.leb 0.5 w = true
            /\ PrimFloat.leb w 1 = true.
Proof.
  unfold weight. destruct (PrimFloat.ltb 0 c_max) eqn:Hpos.
  - unfold truediv. rewrite (ltb_not_eqb 0 c_max Hpos).
    unfold mbind, result_bind.
    eexists. split; [reflexivity|]. apply clamp_bounds.
  - exists 1%float. repeat split; reflexivity.
Qed.

Section WithPow.
Variable float_pow : float -> Z -> float.

(** X5.  On a non-empty window [calculate_nowcast] never returns for a
    pollutant without a table: it raises the ValueError of
    [calculate_standard_aqi], or a ZeroDivisionError if the weights sum to
    zero.  Only the empty window hides an unsupported pollutant. *)
Theorem nowcast_unsupported_pollutant (pm_last_12h : list float)
    (pollutant : string) :
  pm_last_12h <> [] ->
  pollutant ∉ ["pm25"; "pm10"; "o3"] ->
  calculate_nowcast float_pow pm_last_12h pollutant
    = Raise (ValueError ("No breakpoints defined for pollutant: " +:+ pollutant))
  \/ calculate_nowcast float_pow pm_last_12h pollutant
    = Raise (ZeroDivisionError "float division by zero").
Proof.
  intros Hne Hp. destruct pm_last_12h as [|x rest]; [congruence|].
  unfold calculate_nowcast, window_weight.
  destruct (nowcast_weight_bounds (min_from x rest) (max_from x rest))
    as (w & -> & _).
  rewrite result_bind_ret.
  unfold nowcast_concentration, truediv.
  destruct (PrimFloat.eqb _ 0).
  - right. reflexivity.
  - left. rewrite result_bind_ret.
    rewrite (proj2 (standard_aqi_unsupported_pollutant _ pollutant) Hp).
    reflexivity.
Qed.

(** X6.  On the empty window [compare_aqi] without a daily average raises
    ZeroDivisionError("division by zero"); with a daily average whose
    standard index is [s] it returns the dict holding [s] and, for the
    NowCast index, [None]. *)
Theorem compare_empty_window (pm_24h_avg : float) (pollutant : string)
    (s : Z) :
  calculate_standard_aqi pm_24h_avg pollutant = Ret s ->
  compare_aqi float_pow [] None pollutant
    = Raise (ZeroDivisionError "division by zero")
  /\ compare_aqi float_pow [] (Some pm_24h_avg) pollutant
     = Ret (<["standard_aqi" := PyInt s]> (<["nowcast_aqi" := PyNone]> ∅)).
Proof.
  intros Hs. split; [reflexivity|].
  unfold compare_aqi. rewrite result_bind_ret, Hs. reflexivity.
Qed.

End WithPow.
End NowcastMore.

(** X5, instance: a one-sample window and the pollutant "co", which the
    docstring of [calculate_standard_aqi] lists. *)
Lemma nowcast_unsupported_pollutant_co :
  ([10%float] <> [] /\ "co" ∉ ["pm25"; "pm10"; "o3"])
  /\ calculate_nowcast pow_ref [10%float] "co"
     = Raise (ValueError "No breakpoints defined for pollutant: co").
Proof.
  assert (Hne : [10%float] <> []) by discriminate.
  assert (Hp : "co" ∉ ["pm25"; "pm10"; "o3"]).
  { intros H. apply list_elem_of_In in H. simpl in H.
    intuition discriminate. }
  split; [split; assumption|].
  destruct (nowcast_unsupported_pollutant pow_ref [10%float] "co" Hne Hp)
    as [H|H]; [exact H|].
  exfalso. vm_compute in H. discriminate H.
Defined.

(** X6, instance: the daily average 20.0 on pm25, of index 68. *)
Lemma compare_empty_window_20 :
  calculate_standard_aqi 20.0 "pm25" = Ret 68%Z
  /\ compare_aqi pow_ref [] None "pm25"
     = Raise (ZeroDivisionError "division by zero")
  /\ compare_aqi pow_ref [] (Some 20.0%float) "pm25"
     = Ret (<["standard_aqi" := PyInt 68]> (<["nowcast_aqi" := PyNone]> ∅)).
Proof.
  assert (Hs : calculate_standard_aqi 20.0 "pm25" = Ret 68%Z)
    by (vm_compute; reflexivity).
  split; [exact Hs|].
  exact (compare_empty_window pow_ref 20.0 "pm25" 68 Hs).
Defined.

(** ** forecast_3_days: columns the loop keeps, missing columns, the lag
    register, the calendar *)

Section ForecastMore.
Variable predict : frame -> result float.

Ltac other_key Hk :=
  intros <-; apply Hk; apply list_elem_of_In; simpl; tauto.

Lemma forecast_step_inv current p current' :
  forecast_step predict current = Ret (p, current') ->
  exists t,
    predict (features current) = Ret p
    /\ current !! "timestamp" = Some (PyTimestamp t)
    /\ current' = update_time (t + 3600)
                    (<["pm25" := PyFloat p]> (update_lags p current)).
Proof.
  unfold forecast_step, next_timestamp.
  destruct (predict (features current)) as [p0|e]; [|discriminate].
  rewrite result_bind_ret.
  destruct (current !! "timestamp") as [[| | | |t|]|]; try discriminate.
  rewrite result_bind_ret. intros H. injection H as <- <-.
  exists t. repeat split.
Qed.

Lemma update_lags_other p current key :
  key ∉ updated_columns -> update_lags p current !! key = current !! key.
Proof.
  intros Hk. unfold update_lags.
  rewrite lookup_insert_ne by other_key Hk.
  destruct (decide (is_Some (current !! "pm25_lag_1h"))); [|reflexivity].
  rewrite !lookup_insert_ne by other_key Hk. reflexivity.
Qed.

Lemma forecast_step_other_columns current p current' key :
  forecast_step predict current = Ret (p, current') ->
  key ∉ updated_columns -> current' !! key = current !! key.
Proof.
  intros Hstep Hk.
  destruct (forecast_step_inv _ _ _ Hstep) as (t & _ & _ & ->).
  unfold update_time. rewrite !lookup_insert_ne by other_key Hk.
  apply update_lags_other, Hk.
Qed.

(** X7.  The loop assigns the three pm25 lag columns, [pm25], the
    timestamp and the six calendar columns, and nothing else: after any
    number of iterations every other column (the rolling means, the
    location, ...) holds the value of the latest observed row. *)
Theorem forecast_loop_keeps_other_columns (n : nat) (predictions : list float)
    (current : frame) (predictions' : list float) (current' : frame)
    (key : string) :
  forecast_loop predict n predictions current = Ret (predictions', current') ->
  key ∉ updated_columns ->
  current' !! key = current !! key.
Proof.
  revert predictions current.
  induction n as [|n IH]; intros predictions current Hloop Hk.
  { simpl in Hloop. injection Hloop as _ <-. reflexivity. }
  simpl in Hloop.
  destruct (forecast_step predict current) as [[p c]|e] eqn:Hstep;
    [|discriminate].
  rewrite result_bind_ret in Hloop.
  rewrite (IH _ _ Hloop Hk).
  eapply forecast_step_other_columns; eassumption.
Qed.

(** The lag columns after one iteration. *)
Lemma forecast_step_lags current p current' :
  forecast_step predict current = Ret (p, current') ->
  current' !! "pm25_lag_1h" = Some (PyFloat p)
  /\ current' !! "pm25" = Some (PyFloat p)
  /\ (forall v, current !! "pm25_lag_1h" = Some v ->
        current' !! "pm25_lag_3h" = Some v
        /\ forall u, current !! "pm25_lag_3h" = Some u ->
             current' !! "pm25_lag_6h" = Some u)
  /\ (current !! "pm25_lag_1h" = None ->
        current' !! "pm25_lag_3h" = current !! "pm25_lag_3h"
        /\ current' !! "pm25_lag_6h" = current !! "pm25_lag_6h").
Proof.
  intros Hstep.
  destruct (forecast_step_inv _ _ _ Hstep) as (t & _ & _ & ->).
  unfold update_time, update_lags.
  split; [by simplify_map_eq|]. split; [by simplify_map_eq|]. split.
  - intros v Hv.
    rewrite decide_True by (rewrite Hv; eexists; reflexivity).
    split; [by simplify_map_eq|].
    intros u Hu. rewrite Hu. by simplify_map_eq.
  - intros Hnone.
    rewrite decide_False by (rewrite Hnone; intros [? ?]; discriminate).
    split; by simplify_map_eq.
Qed.

(** X8.  On a frame without the column pm25_lag_1h one iteration shifts
    nothing: it creates pm25_lag_1h with the prediction and leaves
    pm25_lag_3h and pm25_lag_6h as they were. *)
Theorem forecast_step_without_lag_1h (current : frame) (pred : float) (t : Z) :
  predict (features current) = Ret pred ->
  current !! "timestamp" = Some (PyTimestamp t) ->
  current !! "pm25_lag_1h" = None ->
  exists current',
    forecast_step predict current = Ret (pred, current')
    /\ current' !! "pm25_lag_1h" = Some (PyFloat pred)
    /\ current' !! "pm25_lag_3h" = current !! "pm25_lag_3h"
    /\ current' !! "pm25_lag_6h" = current !! "pm25_lag_6h".
Proof.
  intros Hp Ht Hnone. eexists. split.
  { apply forecast_step_ret; eassumption. }
  destruct (forecast_step_lags current pred _
              (forecast_step_ret predict current pred t Hp Ht))
    as (H1 & _ & _ & Hkeep).
  split; [exact H1|]. apply Hkeep, Hnone.
Qed.

(** The run of [S n] iterations is the run of [n] followed by one. *)
Lemma forecast_loop_last n predictions current predictions' current' :
  forecast_loop predict (S n) predictions current
    = Ret (predictions', current') ->
  exists preds_n current_n p,
    forecast_loop predict n predictions current = Ret (preds_n, current_n)
    /\ forecast_step predict current_n = Ret (p, current')
    /\ predictions' = preds_n ++ [p].
Proof.
  replace (S n) with (n + 1)%nat by lia. rewrite forecast_loop_add.
  destruct (forecast_loop predict n predictions current)
    as [[preds_n current_n]|e]; [|discriminate].
  simpl. destruct (forecast_step predict current_n) as [[p c]|e] eqn:Hstep;
    [|discriminate].
  rewrite result_bind_ret. intros H. injection H as <- <-.
  exists preds_n, current_n, p. repeat split. exact Hstep.
Qed.

(** X10.  After [n] iterations the list holds [n] predictions, and the
    lag columns hold the last three of them: pm25_lag_1h (and pm25) the
    last one, pm25_lag_3h the one before, pm25_lag_6h the one before that.
    Each iteration moves a prediction one column further, whatever the
    column names say. *)
Theorem forecast_loop_lag_register (n : nat) (latest : frame)
    (predictions : list float) (current : frame) :
  forecast_loop predict n [] latest = Ret (predictions, current) ->
  length predictions = n
  /\ forall k p, predictions !! k = Some p ->
       ((k + 1)%nat = n ->
          current !! "pm25_lag_1h" = Some (PyFloat p)
          /\ current !! "pm25" = Some (PyFloat p))
       /\ ((k + 2)%nat = n -> current !! "pm25_lag_3h" = Some (PyFloat p))
       /\ ((k + 3)%nat = n -> current !! "pm25_lag_6h" = Some (PyFloat p)).
Proof.
  revert predictions current.
  induction n as [|n IH]; intros predictions current Hloop.
  { simpl in Hloop. injection Hloop as <- <-.
    split; [reflexivity|]. intros k p Hk. discriminate Hk. }
  destruct (forecast_loop_last _ _ _ _ _ Hloop)
    as (preds_n & current_n & p' & Hn & Hstep & ->).
  destruct (IH _ _ Hn) as (Hlen & Hreg).
  destruct (forecast_step_lags _ _ _ Hstep) as (H1 & Hpm & Hshift & _).
  split; [rewrite length_app, Hlen; simpl; lia|].
  intros k p Hk.
  assert (Hlast : forall j q, preds_n !! j = Some q -> (j + 1)%nat = n ->
                              current_n !! "pm25_lag_1h" = Some (PyFloat q)).
  { intros j q Hj Hjn. apply (Hreg j q Hj), Hjn. }
  split; [|split].
  - intros Hkn. assert (k = length preds_n) as -> by lia.
    rewrite lookup_app_r in Hk by lia.
    replace (length preds_n - length preds_n)%nat with 0%nat in Hk by lia.
    simpl in Hk. injection Hk as <-. split; assumption.
  - intros Hkn. rewrite lookup_app_l in Hk by lia.
    apply (Hshift (PyFloat p)). apply (Hlast k p Hk). lia.
  - intros Hkn. rewrite lookup_app_l in Hk by lia.
    destruct (lookup_lt_is_Some_2 preds_n (n - 1)) as [q Hq]; [lia|].
    destruct (Hshift (PyFloat q)) as [_ Hsix].
    { apply (Hlast (n - 1)%nat q Hq). lia. }
    apply Hsix. apply (Hreg k p Hk). lia.
Qed.

End ForecastMore.

(** X7, instance: the rolling mean of [seed_row_rolling] after the 72
    iterations of the constant model. *)
Lemma forecast_loop_keeps_rolling_mean :
  (forecast_loop const5 72 [] seed_row_rolling
     = Ret (replicate 72 5%float,
            loop_state (forecast_loop const5 72 [] seed_row_rolling))
   /\ "pm25_rolling_3h" ∉ updated_columns)
  /\ loop_state (forecast_loop const5 72 [] seed_row_rolling)
       !! "pm25_rolling_3h" = Some (PyFloat 15).
Proof.
  assert (Hloop : forecast_loop const5 72 [] seed_row_rolling
     = Ret (replicate 72 5%float,
            loop_state (forecast_loop const5 72 [] seed_row_rolling)))
    by (vm_compute; reflexivity).
  assert (Hk : "pm25_rolling_3h" ∉ updated_columns).
  { intros H. apply list_elem_of_In in H. simpl in H.
    intuition discriminate. }
  split; [split; assumption|].
  rewrite (forecast_loop_keeps_other_columns const5 72 [] seed_row_rolling
             _ _ "pm25_rolling_3h" Hloop Hk).
  reflexivity.
Defined.

(** X8, instance: the row without lag columns and the constant model. *)
Lemma forecast_step_without_lag_1h_instance :
  (const5 (features seed_row_no_lags) = Ret 5%float
   /\ seed_row_no_lags !! "timestamp" = Some (PyTimestamp 0)
   /\ seed_row_no_lags !! "pm25_lag_1h" = None)
  /\ exists current',
       forecast_step const5 seed_row_no_lags = Ret (5%float, current')
       /\ current' !! "pm25_lag_1h" = Some (PyFloat 5)
       /\ current' !! "pm25_lag_3h" = None
       /\ current' !! "pm25_lag_6h" = None.
Proof.
  split; [repeat split|].
  exact (forecast_step_without_lag_1h const5 seed_row_no_lags 5 0
           eq_refl eq_refl eq_refl).
Defined.

(** X10, instance: the model predicting the hour of its row gives 0, 1, 2
    in three iterations from midnight; the lag columns then hold 2, 1, 0. *)
Lemma forecast_loop_lag_register_3 :
  forecast_loop hour_model 3 [] seed_row
    = Ret ([0; 1; 2]%float, loop_state (forecast_loop hour_model 3 [] seed_row))
  /\ loop_state (forecast_loop hour_model 3 [] seed_row) !! "pm25_lag_1h"
     = Some (PyFloat 2)
  /\ loop_state (forecast_loop hour_model 3 [] seed_row) !! "pm25_lag_3h"
     = Some (PyFloat 1)
  /\ loop_state (forecast_loop hour_model 3 [] seed_row) !! "pm25_lag_6h"
     = Some (PyFloat 0).
Proof.
  assert (Hloop : forecast_loop hour_model 3 [] seed_row
    = Ret ([0; 1; 2]%float,
           loop_state (forecast_loop hour_model 3 [] seed_row)))
    by (vm_compute; reflexivity).
  split; [exact Hloop|].
  destruct (forecast_loop_lag_register hour_model 3 seed_row _ _ Hloop)
    as (_ & Hreg).
  split; [|split].
  - exact (proj1 (proj1 (Hreg 2%nat 2%float eq_refl) eq_refl)).
  - exact (proj1 (proj2 (Hreg 1%nat 1%float eq_refl)) eq_refl).
  - exact (proj2 (proj2 (Hreg 0%nat 0%float eq_refl)) eq_refl).
Defined.

(** ** The calendar columns of the loop and of transform_features *)

Lemma ts_hour_next t : ts_hour (t + 3600) = ((ts_hour t + 1) mod 24)%Z.
Proof.
  unfold ts_hour.
  replace (t + 3600)%Z with (t + 1 * 3600)%Z by lia.
  rewrite Z.div_add by lia.
  rewrite Zplus_mod_idemp_l. reflexivity.
Qed.

Lemma weekend_rule t :
  py_of_bool (5 <=? ts_dayofweek t)%Z = isin_int (ts_dayofweek t) [5; 6]%Z.
Proof.
  unfold py_of_bool, isin_int, ts_dayofweek.
  assert (Hd := Z.mod_pos_bound (ts_days t + 3) 7 ltac:(lia)).
  set (d := ((ts_days t + 3) mod 7)%Z) in *.
  destruct (Z.leb_spec 5 d) as [Hle|Hlt].
  - rewrite bool_decide_eq_true_2; [reflexivity|].
    apply list_elem_of_In. simpl. lia.
  - rewrite bool_decide_eq_false_2; [reflexivity|].
    intros H. apply list_elem_of_In in H. simpl in H. lia.
Qed.

(** X11.  After one iteration the six calendar columns of the frame are
    the ones sections 2 and 3 of [transform_features] compute for the new
    timestamp (the weekend test [dayofweek >= 5] of the loop agrees with
    the [isin([5, 6])] of the transform), and the hour column is the
    hour of the old timestamp plus one, modulo 24. *)
Theorem forecast_step_calendar (predict : frame -> result float)
    (current : frame) (pred : float) (t : Z) :
  predict (features current) = Ret pred ->
  current !! "timestamp" = Some (PyTimestamp t) ->
  exists current',
    forecast_step predict current = Ret (pred, current')
    /\ (forall key, key ∈ calendar_columns ->
          current' !! key = time_features (t + 3600) ∅ !! key)
    /\ current' !! "hour" = Some (PyInt ((ts_hour t + 1) mod 24)).
Proof.
  intros Hp Ht. eexists. split.
  { apply forecast_step_ret; eassumption. }
  split.
  - intros key Hkey. apply list_elem_of_In in Hkey. simpl in Hkey.
    unfold update_time, time_features. rewrite weekend_rule.
    destruct Hkey as [<-|[<-|[<-|[<-|[<-|[<-|[]]]]]]]; by simplify_map_eq.
  - unfold update_time. rewrite <- ts_hour_next. by simplify_map_eq.
Qed.

(** X11, instance: from 23:00 of Friday 1970-01-02 the next row is
    midnight of Saturday: hour 0, weekend. *)
Lemma forecast_step_calendar_midnight :
  (const5 (features friday_row) = Ret 5%float
   /\ friday_row !! "timestamp" = Some (PyTimestamp 169200))
  /\ exists current',
       forecast_step const5 friday_row = Ret (5%float, current')
       /\ current' !! "hour" = Some (PyInt 0)
       /\ current' !! "is_weekend" = Some (PyInt 1).
Proof.
  assert (Hp : const5 (features friday_row) = Ret 5%float) by reflexivity.
  assert (Ht : friday_row !! "timestamp" = Some (PyTimestamp 169200))
    by reflexivity.
  split; [split; assumption|].
  destruct (forecast_step_calendar const5 friday_row 5%float 169200%Z Hp Ht)
    as (current' & Hstep & Hcal & Hhour).
  exists current'. split; [exact Hstep|]. split; [exact Hhour|].
  rewrite (Hcal "is_weekend");
    [reflexivity|apply list_elem_of_In; simpl; tauto].
Defined.

(** ** app.py: the forecast table and the colours *)

Lemma apply_aqi_inv x rest aqis :
  apply_aqi (x :: rest) = Ret aqis ->
  exists a aqis', calculate_standard_aqi x "pm25" = Ret a
                  /\ apply_aqi rest = Ret aqis' /\ aqis = a :: aqis'.
Proof.
  simpl. destruct (calculate_standard_aqi x "pm25") as [a|e]; [|discriminate].
  rewrite result_bind_ret.
  destruct (apply_aqi rest) as [aqis'|e]; [|discriminate].
  rewrite result_bind_ret. intros H. injection H as <-.
  exists a, aqis'. repeat split.
Qed.

(** Row [k] of the table built from the times starting at offset [off]. *)
Lemma forecast_rows_lookup latest_timestamp off preds aqis k p :
  apply_aqi preds = Ret aqis ->
  preds !! k = Some p ->
  exists a,
    calculate_standard_aqi p "pm25" = Ret a
    /\ zip (zip (map (fun i => (latest_timestamp + 3600 * (Z.of_nat i + 1))%Z)
                     (seq off (length preds))) preds) aqis !! k
       = Some ((latest_timestamp + 3600 * (Z.of_nat (off + k) + 1))%Z, p, a).
Proof.
  revert off aqis k. induction preds as [|x rest IH]; intros off aqis k Ha Hk.
  { discriminate. }
  destruct (apply_aqi_inv _ _ _ Ha) as (a & aqis' & Hx & Hrest & ->).
  destruct k as [|k']; simpl in Hk.
  - injection Hk as <-. exists a. split; [exact Hx|].
    simpl. replace (off + 0)%nat with off by lia. reflexivity.
  - destruct (IH (S off) aqis' k' Hrest Hk) as (a' & Ha' & Hrow).
    exists a'. split; [exact Ha'|]. simpl.
    replace (off + S k')%nat with (S off + k')%nat by lia. exact Hrow.
Qed.

Lemma apply_aqi_length preds aqis :
  apply_aqi preds = Ret aqis -> length aqis = length preds.
Proof.
  revert aqis. induction preds as [|x rest IH]; intros aqis Ha.
  { simpl in Ha. injection Ha as <-. reflexivity. }
  destruct (apply_aqi_inv _ _ _ Ha) as (a & aqis' & _ & Hrest & ->).
  simpl. rewrite (IH _ Hrest). reflexivity.
Qed.

(** X12.  When every prediction converts, the table the dashboard builds
    from the list returned by [forecast_3_days] has one row per
    prediction; row [k] holds the latest timestamp plus [k+1] hours,
    prediction [k] and its pm25 index.  Read as (timestamp, index) pairs
    the rows are the series the specification describes. *)
Theorem forecast_df_rows (latest_timestamp : Z) (predictions : list float)
    (rows : list (Z * float * Z)) :
  forecast_df latest_timestamp predictions = Ret rows ->
  length rows = length predictions
  /\ (forall k p, predictions !! k = Some p ->
        exists aqi,
          calculate_standard_aqi p "pm25" = Ret aqi
          /\ rows !! k
             = Some ((latest_timestamp + 3600 * (Z.of_nat k + 1))%Z, p, aqi))
  /\ is_forecast_series latest_timestamp predictions (row_pair <$> rows).
Proof.
  unfold forecast_df.
  destruct (apply_aqi predictions) as [aqis|e] eqn:Ha; [|discriminate].
  rewrite result_bind_ret. intros H. injection H as <-.
  assert (Hlen : length (zip (zip (forecast_times latest_timestamp predictions)
                                  predictions) aqis) = length predictions).
  { rewrite !length_zip_with. unfold forecast_times.
    rewrite length_map, length_seq, (apply_aqi_length _ _ Ha). lia. }
  assert (Hrows : forall k p, predictions !! k = Some p ->
        exists aqi,
          calculate_standard_aqi p "pm25" = Ret aqi
          /\ zip (zip (forecast_times latest_timestamp predictions)
                      predictions) aqis !! k
             = Some ((latest_timestamp + 3600 * (Z.of_nat k + 1))%Z, p, aqi)).
  { intros k p Hk.
    exact (forecast_rows_lookup latest_timestamp 0 predictions aqis k p Ha Hk). }
  split; [exact Hlen|]. split; [exact Hrows|].
  split; [rewrite length_fmap; exact Hlen|].
  intros k p Hk. destruct (Hrows k p Hk) as (aqi & Haqi & Hrow).
  exists aqi. split; [exact Haqi|].
  rewrite list_lookup_fmap, Hrow. reflexivity.
Qed.

(** X12, instance: the predictions 5.0 and 20.0 after midnight. *)
Lemma forecast_df_rows_instance :
  forecast_df 0 [5; 20]%float
    = Ret [(3600%Z, 5%float, 21%Z); (7200%Z, 20%float, 68%Z)]
  /\ is_forecast_series 0 [5; 20]%float
       (row_pair <$> [(3600%Z, 5%float, 21%Z); (7200%Z, 20%float, 68%Z)]).
Proof.
  assert (Hdf : forecast_df 0 [5; 20]%float
    = Ret [(3600%Z, 5%float, 21%Z); (7200%Z, 20%float, 68%Z)])
    by (vm_compute; reflexivity).
  split; [exact Hdf|].
  exact (proj2 (proj2 (forecast_df_rows 0 [5; 20]%float _ Hdf))).
Defined.

(** X13.  [aqi_color] gives one colour to all the indices of a pm25
    breakpoint tuple, four different colours to the first four tuples, and
    the fifth colour to both remaining tuples and to the ceiling 500. *)
Theorem aqi_color_by_tuple :
  Forall (fun t => forall a, (ilo t <= a <= ihi t)%Z ->
                             aqi_color a = aqi_color (ilo t)) pm25_table
  /\ NoDup (aqi_color <$> [0; 51; 101; 151; 201]%Z)
  /\ aqi_color 201 = aqi_color 301
  /\ aqi_color 301 = aqi_color 500.
Proof.
  split; [|split; [|split; reflexivity]].
  - unfold pm25_table.
    repeat (constructor;
            [simpl; intros a Ha; unfold aqi_color;
             repeat match goal with
                    | |- context [(?x <=? ?y)%Z] =>
                        destruct (Z.leb_spec x y); try lia
                    end; reflexivity|]).
    constructor.
  - apply NoDup_ListNoDup. simpl.
    repeat (constructor; [simpl; intuition discriminate|]). constructor.
Qed.

(** * The conversion never overflows

    Magnitudes of the intermediate values of the interpolation, from the
    specification of the binary64 operations. *)

Module FloatMagnitude.
Import FloatArith.
Local Open Scope Z_scope.

Lemma mag_le_mono B B' x : mag_le B x -> B <= B' -> mag_le B' x.
Proof. destruct x; simpl; try tauto. lia. Qed.

Lemma Zdigits2_nonneg m : 0 <= Zdigits2 m.
Proof. destruct m; simpl; lia. Qed.

Lemma Zdigits2_lt m : 0 <= m -> m < 2 ^ Zdigits2 m.
Proof.
  destruct m as [|p|p]; simpl; intros H; try lia.
  apply (digits2_pos_bounds p).
Qed.

Lemma Zdigits2_le m k : 0 <= m -> 0 <= k -> m < 2 ^ k -> Zdigits2 m <= k.
Proof.
  destruct m as [|p|p]; simpl; intros Hm Hk Hlt; try lia.
  assert (Hb := digits2_pos_bounds p).
  destruct (Z_le_gt_dec (Zpos (digits2_pos p)) k) as [H|H]; [exact H|].
  assert (2 ^ k <= 2 ^ (Zpos (digits2_pos p) - 1))
    by (apply Z.pow_le_mono_r; lia).
  lia.
Qed.

Lemma shr_spec m r s e n :
  0 <= m ->
  shr_m (fst (shr (Build_shr_record m r s) e n)) = m / 2 ^ Z.max n 0
  /\ snd (shr (Build_shr_record m r s) e n) = e + Z.max n 0.
Proof.
  intros Hm. destruct n as [|k|k]; simpl.
  - rewrite Z.div_1_r. split; [reflexivity|lia].
  - rewrite iter_pos_shr_m by (simpl; lia). simpl. split; reflexivity.
  - rewrite Z.div_1_r. split; [reflexivity|lia].
Qed.

Lemma shr_mag m r s e n B :
  0 <= m -> Zdigits2 m + e <= B ->
  0 <= shr_m (fst (shr (Build_shr_record m r s) e n))
  /\ Zdigits2 (shr_m (fst (shr (Build_shr_record m r s) e n)))
     + snd (shr (Build_shr_record m r s) e n) <= Z.max B (e + Z.max n 0)
  /\ snd (shr (Build_shr_record m r s) e n) = e + Z.max n 0.
Proof.
  intros Hm HB. destruct (shr_spec m r s e n Hm) as [-> ->].
  set (k := Z.max n 0). assert (Hk : 0 <= k) by (unfold k; lia).
  assert (Hp : 0 < 2 ^ k) by (apply Z.pow_pos_nonneg; lia).
  assert (Hq : 0 <= m / 2 ^ k) by (apply Z.div_pos; lia).
  split; [exact Hq|]. split; [|reflexivity].
  assert (Hlt := Zdigits2_lt m Hm).
  assert (Hd := Zdigits2_nonneg m).
  destruct (Z_le_gt_dec k (Zdigits2 m)) as [Hle|Hgt].
  - assert (Zdigits2 (m / 2 ^ k) <= Zdigits2 m - k).
    { apply Zdigits2_le; [exact Hq|lia|].
      apply Z.div_lt_upper_bound; [lia|].
      rewrite <- Z.pow_add_r by lia.
      replace (k + (Zdigits2 m - k)) with (Zdigits2 m) by lia. exact Hlt. }
    lia.
  - assert (m < 2 ^ k).
    { eapply Z.lt_le_trans; [exact Hlt|]. apply Z.pow_le_mono_r; lia. }
    rewrite Z.div_small by lia. simpl. lia.
Qed.

Lemma round_nearest_even_bounds m l :
  0 <= m -> m <= round_nearest_even m l <= m + 1.
Proof.
  intros Hm. destruct l as [|[]]; simpl; try lia.
  destruct (Z.even m); lia.
Qed.

Lemma Zdigits2_succ m m' :
  0 <= m -> m <= m' <= m + 1 -> Zdigits2 m' <= Zdigits2 m + 1.
Proof.
  intros Hm Hm'. assert (Hlt := Zdigits2_lt m Hm).
  assert (Hd := Zdigits2_nonneg m).
  apply Zdigits2_le; [lia|lia|].
  rewrite Z.pow_add_r by lia. simpl (2 ^ 1). lia.
Qed.

(** Rounding an exact value of magnitude at most [B] gives a zero or a
    finite number of magnitude at most [B + 1]: no overflow while [B]
    stays below the largest exponent. *)
Lemma binary_round_aux_mag s m e B :
  0 <= m -> Zdigits2 m + e <= B -> e <= B -> emin <= B -> B <= 971 ->
  mag_le (B + 1) (binary_round_aux prec emax s m e loc_Exact).
Proof.
  intros Hm HD He Hmin Hmax.
  unfold binary_round_aux, shr_fexp.
  change (shr_record_of_loc m loc_Exact)
    with (Build_shr_record m false false).
  set (n1 := fexp prec emax (Zdigits2 m + e) - e).
  destruct (shr_mag m false false e n1 B Hm HD) as (Hm1 & HD1 & He1).
  destruct (shr (Build_shr_record m false false) e n1) as [mrs' e'].
  simpl in Hm1, HD1, He1.
  assert (He' : e' <= B).
  { subst e'. unfold n1, fexp, SpecFloat.emin, prec, emax in *. lia. }
  assert (HD1' : Zdigits2 (shr_m mrs') + e' <= B) by lia.
  set (m2 := round_nearest_even (shr_m mrs') (loc_of_shr_record mrs')).
  assert (Hm2 := round_nearest_even_bounds (shr_m mrs')
                   (loc_of_shr_record mrs') Hm1).
  fold m2 in Hm2.
  assert (Hd2 := Zdigits2_succ (shr_m mrs') m2 Hm1 Hm2).
  change (shr_record_of_loc m2 loc_Exact)
    with (Build_shr_record m2 false false).
  set (n2 := fexp prec emax (Zdigits2 m2 + e') - e').
  assert (Hm2' : 0 <= m2) by lia.
  assert (HD2 : Zdigits2 m2 + e' <= B + 1) by lia.
  destruct (shr_mag m2 false false e' n2 (B + 1) Hm2' HD2) as (Hm3 & HD3 & He3).
  destruct (shr (Build_shr_record m2 false false) e' n2) as [mrs'' e''].
  simpl in Hm3, HD3, He3.
  assert (He'' : e'' <= B).
  { subst e''. unfold n2, fexp, SpecFloat.emin, prec, emax in *. lia. }
  destruct (shr_m mrs'') as [|p|p] eqn:Hp; [exact I| |lia].
  replace (e'' <=? emax - prec) with true
    by (symmetry; apply Z.leb_le; unfold emax, prec; lia).
  simpl. simpl in HD3. lia.
Qed.

Lemma binary_round_mag s p e B :
  Zpos (digits2_pos p) + e <= B -> emin <= B -> B <= 971 ->
  mag_le (B + 1) (binary_round prec emax s p e).
Proof.
  intros HD Hmin Hmax. unfold binary_round, shl_align.
  destruct (fexp prec emax (Zpos (digits2_pos p) + e) - e) as [|d|d] eqn:Hd;
    apply binary_round_aux_mag; simpl; try lia.
  all: try (rewrite digits2_pos_iter_xO).
  all: unfold fexp, SpecFloat.emin, prec, emax in *; lia.
Qed.

Lemma binary_normalize_mag M e B szero :
  Z.abs M < 2 ^ (B - e) -> e <= B -> emin <= B -> B <= 971 ->
  mag_le (B + 1) (binary_normalize prec emax M e szero).
Proof.
  intros HM He Hmin Hmax.
  destruct M as [|p|p]; simpl; [exact I| |];
    apply binary_round_mag; try lia;
    assert (Zdigits2 (Zpos p) <= B - e)
      by (apply Zdigits2_le; simpl in *; lia);
    simpl in *; lia.
Qed.

Lemma shl_align_lt m e ez :
  ez <= e ->
  Zpos (fst (shl_align m e ez)) < 2 ^ (Zpos (digits2_pos m) + e - ez).
Proof.
  intros Hez. unfold shl_align.
  destruct (ez - e) as [|d|d] eqn:Hd; simpl.
  - replace (Zpos (digits2_pos m) + e - ez) with (Zpos (digits2_pos m)) by lia.
    apply digits2_pos_bounds.
  - lia.
  - replace (Zpos (digits2_pos m) + e - ez)
      with (Zpos (digits2_pos (Pos.iter xO m d)))
      by (rewrite digits2_pos_iter_xO; lia).
    apply digits2_pos_bounds.
Qed.

Lemma aligned_lt m e ez B :
  ez <= e -> Zpos (digits2_pos m) + e <= B ->
  Zpos (fst (shl_align m e ez)) < 2 ^ (B - ez).
Proof.
  intros Hez HB. eapply Z.lt_le_trans; [apply shl_align_lt, Hez|].
  apply Z.pow_le_mono_r; lia.
Qed.

Lemma SFadd_mag x y B :
  mag_le B x -> mag_le B y -> emin <= B -> B <= 960 ->
  mag_le (B + 2) (SFadd prec emax x y).
Proof.
  intros Hx Hy Hmin Hmax.
  destruct x as [sx|sx| |sx mx ex], y as [sy|sy| |sy my ey];
    simpl in Hx, Hy; try tauto.
  - simpl. destruct sx, sy; exact I.
  - simpl. lia.
  - simpl. lia.
  - unfold SFadd.
    set (ez := Z.min ex ey).
    assert (H1 := aligned_lt mx ex ez B ltac:(unfold ez; lia) Hx).
    assert (H2 := aligned_lt my ey ez B ltac:(unfold ez; lia) Hy).
    replace (B + 2) with (B + 1 + 1) by lia.
    apply binary_normalize_mag; try (unfold ez; lia).
    replace (B + 1 - ez) with (Z.succ (B - ez)) by lia.
    rewrite Z.pow_succ_r by (unfold ez; lia).
    destruct sx, sy; unfold cond_Zopp; lia.
Qed.

Lemma SFsub_mag x y B :
  mag_le B x -> mag_le B y -> emin <= B -> B <= 960 ->
  mag_le (B + 2) (SFsub prec emax x y).
Proof.
  intros Hx Hy Hmin Hmax.
  destruct x as [sx|sx| |sx mx ex], y as [sy|sy| |sy my ey];
    simpl in Hx, Hy; try tauto.
  - simpl. destruct sx, sy; exact I.
  - simpl. lia.
  - simpl. lia.
  - unfold SFsub.
    set (ez := Z.min ex ey).
    assert (H1 := aligned_lt mx ex ez B ltac:(unfold ez; lia) Hx).
    assert (H2 := aligned_lt my ey ez B ltac:(unfold ez; lia) Hy).
    replace (B + 2) with (B + 1 + 1) by lia.
    apply binary_normalize_mag; try (unfold ez; lia).
    replace (B + 1 - ez) with (Z.succ (B - ez)) by lia.
    rewrite Z.pow_succ_r by (unfold ez; lia).
    destruct sx, sy; unfold cond_Zopp; lia.
Qed.

Lemma SFmul_mag x y B1 B2 :
  mag_le B1 x -> mag_le B2 y -> emin <= B1 + B2 -> B1 + B2 <= 971 ->
  mag_le (B1 + B2 + 1) (SFmul prec emax x y).
Proof.
  intros Hx Hy Hmin Hmax.
  destruct x as [sx|sx| |sx mx ex], y as [sy|sy| |sy my ey];
    simpl in Hx, Hy; try tauto; try exact I.
  unfold SFmul.
  assert (Hbx := digits2_pos_bounds mx). assert (Hby := digits2_pos_bounds my).
  apply binary_round_aux_mag; try lia.
  assert (Zdigits2 (Zpos (mx * my))
          <= Zpos (digits2_pos mx) + Zpos (digits2_pos my)).
  { apply Zdigits2_le; [lia|lia|].
    rewrite Z.pow_add_r by lia. rewrite Pos2Z.inj_mul. nia. }
  lia.
Qed.

End FloatMagnitude.

Section Totality.
Import FloatOrder FloatArith FloatMagnitude.

Lemma mag_leb_le B x : mag_leb B x = true -> mag_le B x.
Proof.
  destruct x; simpl; try discriminate; try tauto. apply Z.leb_le.
Qed.

Lemma sub_mag x y B :
  mag_le B (Prim2SF x) -> mag_le B (Prim2SF y) -> (emin <= B)%Z -> (B <= 960)%Z ->
  mag_le (B + 2) (Prim2SF (PrimFloat.sub x y)).
Proof. rewrite FloatAxioms.sub_spec. apply SFsub_mag. Qed.

Lemma add_mag x y B :
  mag_le B (Prim2SF x) -> mag_le B (Prim2SF y) -> (emin <= B)%Z -> (B <= 960)%Z ->
  mag_le (B + 2) (Prim2SF (PrimFloat.add x y)).
Proof. rewrite FloatAxioms.add_spec. apply SFadd_mag. Qed.

Lemma mul_mag x y B1 B2 :
  mag_le B1 (Prim2SF x) -> mag_le B2 (Prim2SF y) ->
  (emin <= B1 + B2)%Z -> (B1 + B2 <= 971)%Z ->
  mag_le (B1 + B2 + 1) (Prim2SF (PrimFloat.mul x y)).
Proof. rewrite FloatAxioms.mul_spec. apply SFmul_mag. Qed.

Lemma round_returns x B : mag_le B (Prim2SF x) -> exists z, Py.round x = Ret z.
Proof.
  unfold Py.round. destruct (Prim2SF x); simpl; try tauto; eauto.
Qed.

(** A float between a non-negative bound and a finite bound [hi] is a
    zero or a finite number no larger in magnitude than [hi]. *)
Lemma range_mag c lo hi mh eh :
  PrimFloat.leb 0 lo = true -> PrimFloat.leb lo c = true ->
  PrimFloat.leb c hi = true -> Prim2SF hi = S754_finite false mh eh ->
  mag_le (53 + eh) (Prim2SF c).
Proof.
  intros H0 Hlo Hhi Hh.
  assert (H0c := leb_trans _ _ _ H0 Hlo).
  rewrite FloatAxioms.leb_spec in H0c, Hhi. rewrite Hh in Hhi.
  change (Prim2SF 0) with (S754_zero false) in H0c.
  assert (Hv := Prim2SF_valid c).
  destruct (Prim2SF c) as [s|s| |s m e]; simpl.
  - exact I.
  - destruct s; discriminate.
  - discriminate.
  - destruct s; [discriminate|].
    unfold valid_binary, bounded, canonical_mantissa in Hv.
    apply andb_prop in Hv as [Hc _]. apply Z.eqb_eq in Hc.
    unfold SFleb, SFcompare in Hhi.
    destruct (Z.compare_spec e eh); try discriminate;
      unfold fexp, SpecFloat.emin, prec, emax in Hc; lia.
Qed.

Lemma interpolate_returns t c :
  tuple_ok t = true -> in_range t c = true -> exists z, interpolate t c = Ret z.
Proof.
  unfold tuple_ok, in_range. intros Hok Hin.
  apply andb_prop in Hok as [Hok Hilo]. apply andb_prop in Hok as [Hok Hhi].
  apply andb_prop in Hok as [Hok Hlo]. apply andb_prop in Hok as [Hslope H0].
  apply andb_prop in Hin as [Hge Hle].
  unfold interpolate.
  destruct (truediv _ _) as [slope|e]; [|discriminate].
  rewrite result_bind_ret.
  apply mag_leb_le in Hslope, Hlo, Hilo.
  destruct (Prim2SF (bphi t)) as [| | |[] mh eh] eqn:Hh; try discriminate.
  apply Z.leb_le in Hhi.
  assert (Hc := range_mag c (bplo t) (bphi t) mh eh H0 Hge Hle Hh).
  apply (mag_le_mono _ 20) in Hc; [|lia].
  assert (H1 := sub_mag c (bplo t) 20 Hc Hlo
                  ltac:(unfold SpecFloat.emin, prec, emax; lia) ltac:(lia)).
  assert (H2 := mul_mag slope _ 20 (20 + 2) Hslope H1
                  ltac:(unfold SpecFloat.emin, prec, emax; lia) ltac:(lia)).
  apply (mag_le_mono _ 43) in Hilo; [|lia].
  assert (H3 := add_mag _ _ 43 H2 Hilo
                  ltac:(unfold SpecFloat.emin, prec, emax; lia) ltac:(lia)).
  eapply round_returns, H3.
Qed.

Lemma scan_returns table c :
  forallb tuple_ok table = true -> exists z, scan table c = Ret z.
Proof.
  induction table as [|t rest IH]; intros Hok; [eexists; reflexivity|].
  simpl in Hok. apply andb_prop in Hok as [Ht Hrest]. simpl.
  destruct (in_range t c) eqn:Hin.
  - apply interpolate_returns; assumption.
  - apply IH, Hrest.
Qed.

Lemma standard_aqi_returns c pollutant :
  is_Some (breakpoints !! pollutant) ->
  exists z, calculate_standard_aqi c pollutant = Ret z.
Proof.
  intros [table Ht]. unfold calculate_standard_aqi. rewrite Ht.
  apply scan_returns.
  destruct (breakpoints_cases _ _ Ht) as [->|[->| ->]];
    vm_compute; reflexivity.
Qed.

End Totality.

(** X14.  [calculate_standard_aqi] returns an int exactly for the
    pollutants pm25, pm10 and o3, and then for every float concentration,
    the infinities and NaN included: the interpolation never overflows,
    so [round] never raises. *)
Theorem standard_aqi_returns_iff_supported (concentration : float)
    (pollutant : string) :
  (exists aqi, calculate_standard_aqi concentration pollutant = Ret aqi)
  <-> pollutant ∈ ["pm25"; "pm10"; "o3"].
Proof.
  split.
  - intros [aqi Hret].
    destruct (decide (pollutant ∈ ["pm25"; "pm10"; "o3"])) as [Hin|Hout];
      [exact Hin|].
    unfold calculate_standard_aqi in Hret.
    rewrite (breakpoints_lookup_none pollutant Hout) in Hret.
    discriminate Hret.
  - intros Hin. apply standard_aqi_returns, breakpoints_lookup_some, Hin.
Qed.

(** ** compare_aqi returns a dict *)

Section NowcastReturns.
Import FloatOrder FloatArith FloatMagnitude.

Lemma pos_add_nonneg a x :
  pos_float a -> nonneg_float x -> pos_float (PrimFloat.add a x).
Proof.
  intros Ha [Hx|Hx]; [apply pos_float_add; assumption|].
  unfold pos_float in *. rewrite FloatAxioms.add_spec, Hx.
  destruct Ha as [(m & e & -> & He)| ->]; [left|right]; eauto.
Qed.

Lemma sum_nonneg_pos xs a :
  pos_float a -> Forall nonneg_float xs ->
  pos_float (fold_left PrimFloat.add xs a).
Proof.
  intros Ha Hxs. revert a Ha.
  induction Hxs as [|x xs Hx _ IH]; intros a Ha; [exact Ha|].
  simpl. apply IH. apply pos_add_nonneg; assumption.
Qed.

Lemma weight_returns c_min c_max :
  exists w, weight c_min c_max = Ret w
            /\ PrimFloat.leb 0.5 w = true /\ PrimFloat.leb w 1 = true.
Proof.
  unfold weight. destruct (PrimFloat.ltb 0 c_max) eqn:Hpos.
  - unfold truediv. rewrite (ltb_not_eqb 0 c_max Hpos).
    rewrite result_bind_ret.
    eexists. split; [reflexivity|]. apply clamp_bounds.
  - exists 1%float. repeat split; reflexivity.
Qed.

Section WithPow.
Variable float_pow : float -> Z -> float.
Hypothesis float_pow_zero : forall w, float_pow w 0 = 1%float.
Hypothesis float_pow_nonneg : forall w t,
  PrimFloat.leb 0.5 w = true -> PrimFloat.leb w 1 = true ->
  nonneg_float (float_pow w t).

Lemma denominator_pos w xs :
  xs <> [] -> PrimFloat.leb 0.5 w = true -> PrimFloat.leb w 1 = true ->
  pos_float (denominator float_pow w xs).
Proof.
  intros Hne Hlo Hhi. unfold denominator, Py.sum.
  destruct xs as [|x rest]; [congruence|].
  simpl. rewrite float_pow_zero.
  change (PrimFloat.add 0 1) with 1%float.
  apply sum_nonneg_pos; [exact pos_float_one|].
  apply Forall_forall. intros y Hy. apply list_elem_of_In in Hy.
  apply in_map_iff in Hy as (t & <- & _).
  apply float_pow_nonneg; assumption.
Qed.

Lemma nowcast_returns xs pollutant :
  xs <> [] -> is_Some (breakpoints !! pollutant) ->
  exists aqi, calculate_nowcast float_pow xs pollutant = Ret (Some aqi).
Proof.
  intros Hne Hp. destruct xs as [|x rest] eqn:Hxs; [congruence|].
  unfold calculate_nowcast, window_weight.
  destruct (weight_returns (min_from x rest) (max_from x rest))
    as (w & -> & Hlo & Hhi).
  rewrite result_bind_ret. unfold nowcast_concentration, truediv.
  rewrite (pos_float_eqb_zero _ (denominator_pos w (x :: rest) Hne Hlo Hhi)).
  rewrite result_bind_ret.
  destruct (standard_aqi_returns
              (PrimFloat.div (numerator float_pow w (x :: rest))
                             (denominator float_pow w (x :: rest)))
              pollutant Hp) as [aqi ->].
  rewrite result_bind_ret. exists aqi. reflexivity.
Qed.

End WithPow.

(** Rounding a non-negative mantissa gives a zero, a finite number or an
    infinity of the sign asked for. *)
Lemma binary_round_aux_sign s m e :
  (0 <= m)%Z ->
  binary_round_aux prec emax s m e loc_Exact = S754_zero s
  \/ signed_nonzero s (binary_round_aux prec emax s m e loc_Exact).
Proof.
  intros Hm. unfold binary_round_aux, shr_fexp.
  change (shr_record_of_loc m loc_Exact) with (Build_shr_record m false false).
  set (n1 := (fexp prec emax (Zdigits2 m + e) - e)%Z).
  destruct (shr_mag m false false e n1 (Zdigits2 m + e) Hm ltac:(lia))
    as (Hm1 & _ & _).
  destruct (shr (Build_shr_record m false false) e n1) as [mrs' e'].
  simpl in Hm1.
  set (m2 := round_nearest_even (shr_m mrs') (loc_of_shr_record mrs')).
  assert (Hm2 := round_nearest_even_bounds (shr_m mrs')
                   (loc_of_shr_record mrs') Hm1).
  fold m2 in Hm2.
  change (shr_record_of_loc m2 loc_Exact) with (Build_shr_record m2 false false).
  set (n2 := (fexp prec emax (Zdigits2 m2 + e') - e')%Z).
  destruct (shr_mag m2 false false e' n2 (Zdigits2 m2 + e') ltac:(lia) ltac:(lia))
    as (Hm3 & _ & He3).
  destruct (shr (Build_shr_record m2 false false) e' n2) as [mrs'' e''].
  simpl in Hm3, He3.
  destruct (shr_m mrs'') as [|p|p]; [left; reflexivity| |lia].
  right. destruct (e'' <=? emax - prec)%Z; [left|right; reflexivity].
  exists p, e''. split; [reflexivity|].
  subst e''. unfold n2, fexp, SpecFloat.emin, prec, emax. lia.
Qed.

Lemma pow_ref_nonneg w t :
  PrimFloat.leb 0.5 w = true -> PrimFloat.leb w 1 = true ->
  nonneg_float (pow_ref w t).
Proof.
  intros Hlo Hhi. unfold pow_ref.
  assert (Hw : exists m e, Prim2SF w = S754_finite false m e).
  { rewrite FloatAxioms.leb_spec in Hlo, Hhi.
    change (Prim2SF 0.5) with (S754_finite false 4503599627370496 (-53)) in Hlo.
    change (Prim2SF 1) with (S754_finite false 4503599627370496 (-52)) in Hhi.
    destruct (Prim2SF w) as [[]|[]| |[] m e]; try discriminate; eauto. }
  destruct Hw as (mw & ew & Hw).
  induction (Z.to_nat t) as [|n IH].
  { left. exact pos_float_one. }
  simpl. unfold nonneg_float, pos_float in *.
  rewrite FloatAxioms.mul_spec, Hw. unfold SF64mul.
  destruct IH as [[(m & e & -> & He)| ->]| ->].
  - unfold SFmul. simpl xorb.
    destruct (binary_round_aux_sign false (Zpos (mw * m)) (ew + e)
                ltac:(lia)) as [H|H]; [right|left]; exact H.
  - left. right. reflexivity.
  - right. reflexivity.
Qed.

End NowcastReturns.

(** C9 (as amended).  For a non-empty window (of a length Python allows,
    below 2^63) and a pollutant with a table, [compare_aqi] without the
    daily average and [compare_aqi] given the float
    [sum(window)/len(window)] both return a dict, and the same one: its
    standard index is that of this float and its NowCast index that of the
    window.  Of [w ** t] only [w ** 0 == 1.0] and, for [0.5 <= w <= 1],
    [w ** t >= 0] are assumed. *)
Theorem compare_default_is_float_mean (float_pow : float -> Z -> float)
    (pm_last_12h : list float) (pollutant : string) :
  (forall w, float_pow w 0%Z = 1%float) ->
  (forall w t, PrimFloat.leb 0.5 w = true -> PrimFloat.leb w 1 = true ->
               nonneg_float (float_pow w t)) ->
  pm_last_12h <> [] ->
  (Z.of_nat (length pm_last_12h) < 2 ^ 63)%Z ->
  is_Some (breakpoints !! pollutant) ->
  exists standard nowcast,
    calculate_standard_aqi
      (PrimFloat.div (Py.sum pm_last_12h)
                     (float_of_Z (Z.of_nat (length pm_last_12h))))
      pollutant = Ret standard
    /\ calculate_nowcast float_pow pm_last_12h pollutant = Ret (Some nowcast)
    /\ compare_aqi float_pow pm_last_12h None pollutant
       = Ret (comparison standard nowcast)
    /\ compare_aqi float_pow pm_last_12h
         (Some (PrimFloat.div (Py.sum pm_last_12h)
                  (float_of_Z (Z.of_nat (length pm_last_12h)))))
         pollutant
       = Ret (comparison standard nowcast).
Proof.
  intros Hpow0 Hpow Hne Hmax Hp.
  assert (Hlen : (0 < length pm_last_12h)%nat).
  { destruct pm_last_12h; [congruence|simpl; lia]. }
  set (mean := PrimFloat.div (Py.sum pm_last_12h)
                 (float_of_Z (Z.of_nat (length pm_last_12h)))).
  assert (Hmean : window_mean pm_last_12h = Ret mean).
  { unfold window_mean. destruct pm_last_12h as [|x rest]; [congruence|].
    unfold truediv.
    rewrite (FloatArith.pos_float_eqb_zero _
               (float_of_length_pos _ Hlen Hmax)).
    reflexivity. }
  destruct (standard_aqi_returns mean pollutant Hp) as [standard Hs].
  destruct (nowcast_returns float_pow Hpow0 Hpow pm_last_12h pollutant Hne Hp)
    as [nowcast Hn].
  exists standard, nowcast.
  split; [exact Hs|]. split; [exact Hn|].
  unfold compare_aqi. rewrite Hmean, !result_bind_ret, Hs, result_bind_ret, Hn.
  split; reflexivity.
Qed.

(** C9, instance: the window 10, 20, 30, 40 on pm25, whose float mean is
    25.0: both calls return the standard index 78 and the NowCast index
    94. *)
Lemma compare_default_is_float_mean_4 :
  ((forall w, pow_ref w 0%Z = 1%float)
   /\ (forall w t, PrimFloat.leb 0.5 w = true -> PrimFloat.leb w 1 = true ->
                   nonneg_float (pow_ref w t))
   /\ [10; 20; 30; 40]%float <> []
   /\ (Z.of_nat (length [10; 20; 30; 40]%float) < 2 ^ 63)%Z
   /\ is_Some (breakpoints !! "pm25"))
  /\ compare_aqi pow_ref [10; 20; 30; 40]%float None "pm25"
     = Ret (comparison 78 94)
  /\ compare_aqi pow_ref [10; 20; 30; 40]%float (Some 25%float) "pm25"
     = Ret (comparison 78 94).
Proof.
  assert (H0 : forall w, pow_ref w 0%Z = 1%float) by reflexivity.
  assert (Hne : [10; 20; 30; 40]%float <> []) by discriminate.
  assert (Hmax : (Z.of_nat (length [10; 20; 30; 40]%float) < 2 ^ 63)%Z)
    by (simpl; lia).
  assert (Hp : is_Some (breakpoints !! "pm25")) by (eexists; reflexivity).
  split; [repeat split; try assumption; apply pow_ref_nonneg|].
  destruct (compare_default_is_float_mean pow_ref [10; 20; 30; 40]%float
              "pm25" H0 pow_ref_nonneg Hne Hmax Hp)
    as (standard & nowcast & Hs & Hn & Hnone & Hsome).
  assert (standard = 78%Z) as ->
    by (vm_compute in Hs; injection Hs as <-; reflexivity).
  assert (nowcast = 94%Z) as ->
    by (vm_compute in Hn; injection Hn as <-; reflexivity).
  split; [exact Hnone|]. exact Hsome.
Defined.

(** C9 (the claim as stated fails).  The arithmetic mean of the window
    0.2, 0.2, 0.2 is 0.2.  Given 0.2 on o3 the standard index is 300; with
    the average omitted the default is the float 0.6000000000000001 / 3 =
    0.20000000000000004, which lies above the last tuple, and the standard
    index is 500. *)
Lemma compare_explicit_mean_differs :
  is_arithmetic_mean [0.2; 0.2; 0.2]%float 0.2%float
  /\ compare_aqi pow_ref [0.2; 0.2; 0.2]%float (Some 0.2%float) "o3"
     = Ret (comparison 300 500)
  /\ compare_aqi pow_ref [0.2; 0.2; 0.2]%float None "o3"
     = Ret (comparison 500 500)
  /\ comparison 300 500 <> comparison 500 500.
Proof.
  split; [vm_compute; reflexivity|].
  split; [vm_compute; reflexivity|].
  split; [vm_compute; reflexivity|].
  intros H.
  assert (H' : comparison 300 500 !! "standard_aqi"
               = comparison 500 500 !! "standard_aqi") by (rewrite H; reflexivity).
  vm_compute in H'. discriminate H'.
Qed.
